(** * qrz_lookup.py: session cache and callsign lookup

    A shallow embedding of [src/qrz_lookup.py].  The program talks to three
    things outside itself: the session file [./.qrz_session], the remote
    service behind [requests.get], and the terminal.  They are gathered in a
    [World] record that every operation threads through, together with the
    trace of what the program did to them.  A run ends in one of three ways:
    it returns a value, it leaves through [sys.exit], or an exception
    escapes; [outcome] keeps them apart.

    Conventions of the model.
    - Text is a [string] whose characters stand for code points below 256;
      [strip] follows [str.strip()] on that range.
    - Times are binary64 floating-point numbers (seconds since the epoch),
      as in Python, with the same subtraction, division and comparison;
      the clock is read from the world and the modelled operations take no
      time.
    - The XML parser and the local-time formatter are libraries, not code of
      the program: they are the section variables [fromstring] and
      [strftime], so every result holds for any parser and any time zone.
    - The session file, when it exists, is a regular file that can be read
      as text.  Reading it in text mode turns every CR LF and every lone CR
      into LF, as Python's universal newlines do; writing stores the
      characters as they are (POSIX).  The encoding is not modelled.
    - Standard output accepts every character the program prints. *)

From Stdlib Require Import String Ascii List ZArith Bool Lia PrimFloat.
Import ListNotations.
Local Open Scope string_scope.
Local Open Scope list_scope.

(** ** Text *)

(** [str.isspace] on one character, for code points below 256:
    TAB..CR, FS..US and SPACE (9..13, 28..32), NEL (133) and NBSP (160). *)
Definition is_space (c : ascii) : bool :=
  let n := N_of_ascii c in
  (((9 <=? n) && (n <=? 13)) || ((28 <=? n) && (n <=? 32))
   || (n =? 133) || (n =? 160))%N.

Fixpoint lstrip (s : string) : string :=
  match s with
  | EmptyString => EmptyString
  | String c s' => if is_space c then lstrip s' else s
  end.

Fixpoint rstrip (s : string) : string :=
  match s with
  | EmptyString => EmptyString
  | String c s' =>
      match rstrip s' with
      | EmptyString => if is_space c then EmptyString else String c EmptyString
      | r => String c r
      end
  end.

(** [s.strip()] *)
Definition strip (s : string) : string := rstrip (lstrip s).

(** Every character of [s] is white space. *)
Fixpoint all_space (s : string) : bool :=
  match s with
  | EmptyString => true
  | String c s' => is_space c && all_space s'
  end.

(** Carriage return and line feed. *)
Definition CR : ascii := ascii_of_nat 13.
Definition LF : ascii := ascii_of_nat 10.

(** What reading in text mode makes of the characters of a file: CR LF and
    a lone CR both become LF (universal newlines). *)
Fixpoint universal_newlines (s : string) : string :=
  match s with
  | EmptyString => EmptyString
  | String c s' =>
      if Ascii.eqb c CR then
        match s' with
        | String c' s'' =>
            if Ascii.eqb c' LF then String LF (universal_newlines s'')
            else String LF (universal_newlines s')
        | EmptyString => String LF EmptyString
        end
      else String c (universal_newlines s')
  end.

(** [s] holds a carriage return. *)
Fixpoint has_cr (s : string) : bool :=
  match s with
  | EmptyString => false
  | String c s' => Ascii.eqb c CR || has_cr s'
  end.

(** [s] is empty or starts with a character that is not white space. *)
Definition no_leading_space (s : string) : bool :=
  match s with
  | EmptyString => true
  | String c _ => negb (is_space c)
  end.

(** Python's truth value of a [str]: only the empty string is false. *)
Definition nonempty (s : string) : bool :=
  match s with
  | EmptyString => false
  | String _ _ => true
  end.

Fixpoint starts_with (p s : string) : bool :=
  match p, s with
  | EmptyString, _ => true
  | String a p', String b s' => Ascii.eqb a b && starts_with p' s'
  | String _ _, EmptyString => false
  end.

(** [sub in s] on two [str] values. *)
Fixpoint contains (sub s : string) : bool :=
  starts_with sub s ||
  match s with
  | EmptyString => false
  | String _ s' => contains sub s'
  end.

(** [sub] occurs somewhere inside [s]. *)
Definition occurs_in (sub s : string) : Prop :=
  exists pre post : string, s = (pre ++ sub ++ post)%string.

(** ** XML elements, as [xml.etree.ElementTree] presents them *)

(** An element has a tag, a text that is [None] when the element has no
    character data before its first child, and children in document order.
    Attributes and tails are never read by the program. *)
#[warnings="-register-all"]
Inductive Element : Type :=
| Elem (tag : string) (text : option string) (children : list Element).

Definition tag (e : Element) : string :=
  match e with Elem t _ _ => t end.

Definition text (e : Element) : option string :=
  match e with Elem _ x _ => x end.

Definition children (e : Element) : list Element :=
  match e with Elem _ _ cs => cs end.

(** [e.iter()]: the element itself, then its descendants, in document
    order. *)
Fixpoint iter_all (e : Element) : list Element :=
  match e with
  | Elem _ _ cs => e :: flat_map iter_all cs
  end.

(** The elements strictly below [e], in document order. *)
Definition descendants (e : Element) : list Element :=
  flat_map iter_all (children e).

Definition has_tag (t : string) (e : Element) : bool := String.eqb (tag e) t.

(** [root.iter(t)]: every element of the tree with tag [t], the root
    included. *)
Definition iter (t : string) (root : Element) : list Element :=
  filter (has_tag t) (iter_all root).

(** [root.find(".//t")]: the first element with tag [t] strictly below the
    root ([ElementPath] skips the context element itself), [None] when there
    is none. *)
Definition find (t : string) (root : Element) : option Element :=
  List.find (has_tag t) (descendants root).

(** ** The world outside the program *)

(** The session file: its modification time and the characters it holds. *)
Record File : Type := mkFile { mtime : float; raw : string }.

(** The content of the file as a read in text mode returns it. *)
Definition content (f : File) : string := universal_newlines (raw f).

(** The query parameters of one request, in the order the program gives
    them. *)
Definition params : Type := list (string * string).

(** What the program writes to standard output.  Each constructor is one
    [print] of the source; [OutUsernamePrompt] is the only one without a
    final newline. *)
Inductive output : Type :=
| OutUsernamePrompt               (* QRZ Username:  *)
| OutFailedKey                    (* Failed to get session key. *)
| OutBody (body : string)         (* the raw response text *)
| OutGotKey (key : string)        (* Got new session key: key *)
| OutUsingCached                  (* Using cached QRZ session. *)
| OutExpiredOrMissing             (* Session expired or missing - fetching new one. *)
| OutExpiredMidQuery.             (* QRZ session expired mid-query. Restart script. *)

(** What a run does to the world, in order. *)
Inductive event : Type :=
| Stdout (o : output)
| ReadStdin (line : string)
| Getpass (answer : string)
| HttpGet (q : params)
| FileWrite (data : string).

(** [session_file] is [None] when [./.qrz_session] does not exist.  [net n q]
    is what the service answers to the request [q] sent as the [n]-th
    request of the run: [None] when [requests.get] raises, the response body
    otherwise.  [stdin] and [tty] hold the lines the user will type at
    [input()] and at [getpass.getpass]. *)
Record World : Type := mkWorld {
  session_file : option File;
  clock : float;
  stdin : list string;
  tty : list string;
  net : nat -> params -> option string;
  sent : nat;
  trace : list event
}.

Definition log (ev : event) (w : World) : World :=
  mkWorld (session_file w) (clock w) (stdin w) (tty w) (net w) (sent w)
          (trace w ++ [ev]).

Definition set_session_file (f : option File) (w : World) : World :=
  mkWorld f (clock w) (stdin w) (tty w) (net w) (sent w) (trace w).

Definition set_stdin (l : list string) (w : World) : World :=
  mkWorld (session_file w) (clock w) l (tty w) (net w) (sent w) (trace w).

Definition set_tty (l : list string) (w : World) : World :=
  mkWorld (session_file w) (clock w) (stdin w) l (net w) (sent w) (trace w).

Definition count_request (w : World) : World :=
  mkWorld (session_file w) (clock w) (stdin w) (tty w) (net w) (S (sent w))
          (trace w).

(** ** Runs *)

Inductive exn : Type :=
| RequestException   (* requests.get failed *)
| ParseError         (* ET.fromstring failed *)
| TypeError          (* [in] applied to None *)
| AttributeError     (* [.strip()] applied to None *)
| EOFError           (* no more input *)
| OSError.           (* a file operation failed *)

Inductive outcome (A : Type) : Type :=
| Ret (a : A)          (* normal return *)
| Exit (code : Z)      (* sys.exit(code) *)
| Raise (e : exn).     (* an exception escapes *)

Arguments Ret {A} a.
Arguments Exit {A} code.
Arguments Raise {A} e.

Definition M (A : Type) : Type := World -> outcome A * World.

Definition ret {A : Type} (a : A) : M A := fun w => (Ret a, w).

Definition bind {A B : Type} (m : M A) (k : A -> M B) : M B :=
  fun w =>
    match m w with
    | (Ret a, w') => k a w'
    | (Exit c, w') => (Exit c, w')
    | (Raise e, w') => (Raise e, w')
    end.

Definition raise {A : Type} (e : exn) : M A := fun w => (Raise e, w).

Definition sys_exit {A : Type} (code : Z) : M A := fun w => (Exit code, w).

(** [try: m except Exception: h].  [SystemExit] is not an [Exception] and
    passes through. *)
Definition try_except {A : Type} (m : M A) (h : exn -> M A) : M A :=
  fun w =>
    match m w with
    | (Raise e, w') => h e w'
    | r => r
    end.

Declare Scope run_scope.
Delimit Scope run_scope with run.
Notation "x <- m ;; k" := (bind m (fun x => k))
  (at level 100, m at next level, right associativity) : run_scope.
Notation "m ;; k" := (bind m (fun _ => k))
  (at level 100, right associativity) : run_scope.
Local Open Scope run_scope.

(** *** Primitive operations *)

Definition print (o : output) : M unit :=
  fun w => (Ret tt, log (Stdout o) w).

(** [input()] *)
Definition input : M string :=
  fun w =>
    match stdin w with
    | [] => (Raise EOFError, w)
    | l :: rest => (Ret l, log (ReadStdin l) (set_stdin rest w))
    end.

(** [getpass.getpass(prompt)] *)
Definition getpass : M string :=
  fun w =>
    match tty w with
    | [] => (Raise EOFError, w)
    | l :: rest => (Ret l, log (Getpass l) (set_tty rest w))
    end.

(** [requests.get(QRZ_URL, params=q).text] *)
Definition requests_get (q : params) : M string :=
  fun w =>
    let w' := log (HttpGet q) (count_request w) in
    match net w (sent w) q with
    | None => (Raise RequestException, w')
    | Some body => (Ret body, w')
    end.

(** [os.path.exists(SESSION_FILE)] *)
Definition path_exists : M bool :=
  fun w => (Ret (match session_file w with Some _ => true | None => false end), w).

(** [time.time()] *)
Definition time_time : M float := fun w => (Ret (clock w), w).

(** [os.path.getmtime(SESSION_FILE)] *)
Definition getmtime : M float :=
  fun w =>
    match session_file w with
    | Some f => (Ret (mtime f), w)
    | None => (Raise OSError, w)
    end.

(** [open(SESSION_FILE, "r").read()]: the text of the file, with universal
    newlines. *)
Definition read_file : M string :=
  fun w =>
    match session_file w with
    | Some f => (Ret (content f), w)
    | None => (Raise OSError, w)
    end.

(** [open(SESSION_FILE, "w").write(data)]: the file is created or
    replaced, holds the characters of [data], and its modification time
    becomes the current time. *)
Definition write_file (data : string) : M unit :=
  fun w =>
    (Ret tt,
     log (FileWrite data) (set_session_file (Some (mkFile (clock w) data)) w)).

(** ** The program *)

(** The fixed field set of a lookup result, under the keys of the source's
    dictionary. *)
Record Lookup : Type := mkLookup {
  call : string;
  fname : string;
  name : string;
  addr : string;
  state : string;
  country : string;
  timestamp : string
}.

(** [a > b] on floats. *)
Definition float_gt (a b : float) : bool := PrimFloat.ltb b a.

(** The age of a file last modified at [m], in minutes, at time [now]. *)
Definition age_minutes (now m : float) : float := ((now - m) / 60)%float.

Definition SESSION_LIFETIME_MIN : float := 60%float.

(** The test of [load_session], [age_minutes > SESSION_LIFETIME_MIN]: the
    file is older than the lifetime window. *)
Definition too_old (now m : float) : bool :=
  float_gt (age_minutes now m) SESSION_LIFETIME_MIN.

(** The text the probe looks for in an [Error] element. *)
Definition INVALID_SESSION : string := "Invalid session key".

(** An [Error] element that makes the probe fail: it has no text, or its
    text contains the marker. *)
Definition rejecting (e : Element) : bool :=
  match text e with
  | None => true
  | Some t => contains INVALID_SESSION t
  end.

(** The world after one more request [q] was sent. *)
Definition requested (q : params) (w : World) : World :=
  log (HttpGet q) (count_request w).

(** The world after the user was asked for a name and a password and
    answered [line] and [pw]. *)
Definition prompted (line pw : string) (w : World) : World :=
  log (Getpass pw)
    (set_tty (tl (tty w))
       (log (ReadStdin line)
          (set_stdin (tl (stdin w)) (log (Stdout OutUsernamePrompt) w)))).

(** ** Export files and the console of the main program

    The export functions and the main program work on more than the session
    file: [Sys] adds to the [World] the other files of the working
    directory, by name, and what the main program and the exports print.
    The session file is not one of the files of [disk]. *)

(** A value as [json.load] returns it. *)
#[warnings="-register-all"]
Inductive JSON : Type :=
| JNull
| JBool (b : bool)
| JNumber (lexeme : string)
| JString (s : string)
| JArray (items : list JSON)
| JObject (members : list (string * JSON)).

(** The lines the main program and the exports print. *)
Inductive notice : Type :=
| ResultBanner                            (* Callsign Lookup Result: *)
| ResultCall (c : string)                 (*  Call:       c *)
| ResultName (first last : string)        (*  Name:       first last *)
| ResultLocation (place region : string)  (*  Location:   place , region *)
| ResultCountry (c : string)              (*  Country:    c *)
| ResultBlank
| CsvUpdated (filename : string)          (* CSV updated: filename *)
| JsonUpdated (filename : string).        (* JSON updated: filename *)

Record Sys : Type := mkSys {
  core : World;
  disk : string -> option string;
  console : list notice
}.

(** The files of [d] with [filename] holding [data]. *)
Definition put (filename data : string) (d : string -> option string)
    : string -> option string :=
  fun f => if String.eqb f filename then Some data else d f.

Definition P (A : Type) : Type := Sys -> outcome A * Sys.

Definition pret {A : Type} (a : A) : P A := fun s => (Ret a, s).

Definition pbind {A B : Type} (m : P A) (k : A -> P B) : P B :=
  fun s =>
    match m s with
    | (Ret a, s') => k a s'
    | (Exit c, s') => (Exit c, s')
    | (Raise e, s') => (Raise e, s')
    end.

Definition praise {A : Type} (e : exn) : P A := fun s => (Raise e, s).

(** A run on the [World] as a run on the whole system. *)
Definition lift {A : Type} (m : M A) : P A :=
  fun s =>
    let (o, w') := m (core s) in
    (o, mkSys w' (disk s) (console s)).

Declare Scope sys_scope.
Delimit Scope sys_scope with sys.
Notation "x <- m ;; k" := (pbind m (fun x => k))
  (at level 100, m at next level, right associativity) : sys_scope.
Notation "m ;; k" := (pbind m (fun _ => k))
  (at level 100, right associativity) : sys_scope.

Definition say (n : notice) : P unit :=
  fun s => (Ret tt, mkSys (core s) (disk s) (console s ++ [n])).

(** [os.path.exists(filename)] *)
Definition file_exists (filename : string) : P bool :=
  fun s =>
    (Ret (match disk s filename with Some _ => true | None => false end), s).

(** [open(filename, "r").read()] *)
Definition read_text (filename : string) : P string :=
  fun s =>
    match disk s filename with
    | Some data => (Ret data, s)
    | None => (Raise OSError, s)
    end.

(** [open(filename, "w").write(data)] *)
Definition write_text (filename data : string) : P unit :=
  fun s => (Ret tt, mkSys (core s) (put filename data (disk s)) (console s)).

(** Writing [data] to a file opened with [open(filename, "a")]: the file is
    created when it does not exist, and what it held stays in front. *)
Definition append_text (filename data : string) : P unit :=
  fun s =>
    let old := match disk s filename with Some c => c | None => "" end in
    (Ret tt,
     mkSys (core s) (put filename (old ++ data)%string (disk s)) (console s)).

(** The command line after [argparse]. *)
Record Args : Type := mkArgs {
  arg_callsign : string;
  arg_csv : bool;
  arg_json : bool;
  arg_both : bool
}.

Definition CSV_FILE : string := "qrz_callsigns.csv".
Definition JSON_FILE : string := "qrz_callsigns.json".

(** The [fieldnames] of the CSV writer. *)
Definition CSV_FIELDNAMES : list string :=
  ["call"; "fname"; "name"; "addr"; "state"; "country"; "timestamp"].

(** The values of a record in the order of [CSV_FIELDNAMES]. *)
Definition record_values (r : Lookup) : list string :=
  [call r; fname r; name r; addr r; state r; country r; timestamp r].

(** The record as the dictionary [json.dump] sees. *)
Definition record_json (r : Lookup) : JSON :=
  JObject
    [("call", JString (call r)); ("fname", JString (fname r));
     ("name", JString (name r)); ("addr", JString (addr r));
     ("state", JString (state r)); ("country", JString (country r));
     ("timestamp", JString (timestamp r))].

(** [data.append(item)]: only a list has [append]. *)
Definition list_append (data item : JSON) : P JSON :=
  match data with
  | JArray items => pret (JArray (items ++ [item]))
  | _ => praise AttributeError
  end.

(** ** Sample responses and worlds

    A handful of response bodies with the trees [ET.fromstring] gives for
    them, a service that answers from a script, and the worlds the examples
    at the end of the file run in. *)

Definition newline : string := String (ascii_of_nat 10) EmptyString.

Definition body_key : string :=
  "<QRZDatabase><Session><Key> abc123 </Key><Count>12</Count></Session></QRZDatabase>".

Definition doc_key : Element :=
  Elem "QRZDatabase" None
    [Elem "Session" None
       [Elem "Key" (Some " abc123 ") []; Elem "Count" (Some "12") []]].

Definition body_login_failed : string :=
  "<QRZDatabase><Session><Error>Username/password incorrect</Error></Session></QRZDatabase>".

Definition doc_login_failed : Element :=
  Elem "QRZDatabase" None
    [Elem "Session" None
       [Elem "Error" (Some "Username/password incorrect") []]].

Definition body_invalid : string :=
  "<QRZDatabase><Session><Error>Invalid session key</Error></Session></QRZDatabase>".

Definition doc_invalid : Element :=
  Elem "QRZDatabase" None
    [Elem "Session" None [Elem "Error" (Some "Invalid session key") []]].

Definition body_textless_error : string :=
  "<QRZDatabase><Session><Error/></Session></QRZDatabase>".

Definition doc_textless_error : Element :=
  Elem "QRZDatabase" None [Elem "Session" None [Elem "Error" None []]].

Definition body_record : string :=
  "<QRZDatabase><Callsign><call>W1AW</call><name> ARRL HQ </name><country>United States</country></Callsign></QRZDatabase>".

Definition doc_record : Element :=
  Elem "QRZDatabase" None
    [Elem "Callsign" None
       [Elem "call" (Some "W1AW") []; Elem "name" (Some " ARRL HQ ") [];
        Elem "country" (Some "United States") []]].

Definition body_textless_field : string :=
  "<QRZDatabase><Callsign><fname/><name>ARRL HQ</name></Callsign></QRZDatabase>".

Definition doc_textless_field : Element :=
  Elem "QRZDatabase" None
    [Elem "Callsign" None
       [Elem "fname" None []; Elem "name" (Some "ARRL HQ") []]].

Definition body_root_error : string := "<Error>Session Timeout</Error>".

Definition doc_root_error : Element :=
  Elem "Error" (Some "Session Timeout") [].

Definition sample_documents : list (string * Element) :=
  [(body_key, doc_key); (body_login_failed, doc_login_failed);
   (body_invalid, doc_invalid); (body_textless_error, doc_textless_error);
   (body_record, doc_record); (body_textless_field, doc_textless_field);
   (body_root_error, doc_root_error)].

(** A parser that knows the sample documents and refuses everything else. *)
Definition sample_fromstring (s : string) : option Element :=
  option_map snd
    (List.find (fun d => String.eqb (fst d) s) sample_documents).

Definition sample_strftime (now : float) : string := "2024-05-01 12:00:00".

(** A service that gives its [n]-th answer to the [n]-th request. *)
Definition scripted (answers : list (option string))
    : nat -> params -> option string :=
  fun n _ => nth n answers None.

(** A world at time [now] with the given session file, a user who will type
    a name and a password, and a scripted service. *)
Definition sample_world (f : option File) (now : float)
    (answers : list (option string)) : World :=
  mkWorld f now [" w1aw "] ["secret"] (scripted answers) 0 [].

(** The file is ten minutes old and the probe gets a clean response. *)
Definition w_fresh : World :=
  sample_world (Some (mkFile 1000 ("abc123" ++ newline))) 1600
    [Some body_record].

(** The file is ten minutes old and the probe is told the key is invalid;
    the exchange that follows succeeds. *)
Definition w_rejected : World :=
  sample_world (Some (mkFile 1000 "stale9")) 1600
    [Some body_invalid; Some body_key].

(** The file is 150 minutes old; the exchange succeeds. *)
Definition w_expired : World :=
  sample_world (Some (mkFile 1000 "stale9")) 10000 [Some body_key].

(** The file is ten minutes old and holds two spaces and a newline. *)
Definition w_blank : World :=
  sample_world (Some (mkFile 1000 ("  " ++ newline))) 1600 [Some body_key].

(** No file; the first answer of the service is [body]. *)
Definition w_answer (body : string) : World :=
  sample_world None 1600 [Some body].

(** ASCII upper case, as a stand-in for [str.upper]. *)
Definition upper_char (c : ascii) : ascii :=
  let n := nat_of_ascii c in
  if ((97 <=? n) && (n <=? 122))%nat then ascii_of_nat (n - 32) else c.

Fixpoint sample_upper (s : string) : string :=
  match s with
  | EmptyString => EmptyString
  | String c s' => String (upper_char c) (sample_upper s')
  end.

(** Comma-separated values and a line end, for rows without special
    characters. *)
Definition sample_csv_row (l : list string) : string :=
  (String.concat "," l ++
   String (ascii_of_nat 13) (String (ascii_of_nat 10) EmptyString))%string.

Definition quote : string := String (ascii_of_nat 34) EmptyString.

(** A compact printer for JSON values whose strings need no escape. *)
Fixpoint sample_json_dump (v : JSON) : string :=
  match v with
  | JNull => "null"
  | JBool true => "true"
  | JBool false => "false"
  | JNumber lexeme => lexeme
  | JString x => (quote ++ x ++ quote)%string
  | JArray items =>
      ("[" ++ String.concat "," (map sample_json_dump items) ++ "]")%string
  | JObject members =>
      ("{" ++
       String.concat ","
         (map (fun m => (quote ++ fst m ++ quote ++ ":" ++
                         sample_json_dump (snd m))%string) members) ++
       "}")%string
  end.

(** The record of the sample response [body_record]. *)
Definition rec_w1aw : Lookup :=
  mkLookup "W1AW" "" "ARRL HQ" "" "" "United States" "2024-05-01 12:00:00".

Definition rec_k1abc : Lookup :=
  mkLookup "K1ABC" "Ann" "Lee" "Boston" "MA" "United States"
           "2024-05-01 12:05:00".

(** The JSON values the sample reader knows. *)
Definition sample_json_values : list JSON :=
  [JArray []; JObject []; JArray [record_json rec_w1aw];
   JArray [record_json rec_w1aw; record_json rec_k1abc]].

(** A reader that knows the texts of [sample_json_values] and refuses
    everything else. *)
Definition sample_json_load (data : string) : option JSON :=
  List.find (fun v => String.eqb (sample_json_dump v) data)
    sample_json_values.

Definition no_files : string -> option string := fun _ => None.

(** The file is ten minutes old; the probe and the lookup both get the
    record of W1AW. *)
Definition w_run : World :=
  sample_world (Some (mkFile 1000 "abc123")) 1600
    [Some body_record; Some body_record].

(** The service is down. *)
Definition w_offline : World := sample_world None 1600 [None].

Definition args_both : Args := mkArgs "w1aw" false false true.

(** A response that is a single [Error] element, and a parser for it. *)
Definition body_root_invalid : string := "<Error>Invalid session key</Error>".

Definition root_invalid_fromstring (s : string) : option Element :=
  if String.eqb s body_root_invalid
  then Some (Elem "Error" (Some "Invalid session key") [])
  else None.

Definition sys_run : Sys := mkSys w_run no_files [].

(** As [sys_run], with a JSON file that holds an empty object. *)
Definition sys_object : Sys := mkSys w_run (put JSON_FILE "{}" no_files) [].

(** As [sys_run], with a JSON file that holds an empty array. *)
Definition sys_array : Sys := mkSys w_run (put JSON_FILE "[]" no_files) [].

(** An exchange response whose key is a single space, and a parser for
    it. *)
Definition body_blank_key : string :=
  "<QRZDatabase><Session><Key> </Key></Session></QRZDatabase>".

Definition doc_blank_key : Element :=
  Elem "QRZDatabase" None [Elem "Session" None [Elem "Key" (Some " ") []]].

Definition blank_key_fromstring (s : string) : option Element :=
  if String.eqb s body_blank_key then Some doc_blank_key else None.

(** The next run, 1400 seconds after the exchange of [w_answer body_key]
    saved its token; the probe gets a clean response. *)
Definition w_next_run : World :=
  sample_world (Some (mkFile 1600 "abc123")) 3000 [Some body_record].

(** What the parser gives for a [Key] element written with the character
    reference of a carriage return between [ab] and [cd]. *)
Definition body_cr_key : string :=
  "<QRZDatabase><Session><Key>ab&#13;cd</Key></Session></QRZDatabase>".

Definition key_with_cr : string := ("ab" ++ String CR "cd")%string.

Definition doc_cr_key : Element :=
  Elem "QRZDatabase" None
    [Elem "Session" None [Elem "Key" (Some key_with_cr) []]].

Definition cr_key_fromstring (s : string) : option Element :=
  if String.eqb s body_cr_key then Some doc_cr_key else None.

(** A response that is not XML. *)
Definition body_malformed : string := "<html>502 Bad Gateway".

(** A session file of three lines, the first ended by CR LF, the second by
    a lone CR; it is ten minutes old. *)
Definition three_lines : string :=
  ("ab" ++ String CR (String LF ("cd" ++ String CR "EF")))%string.

Definition w_three_lines : World :=
  sample_world (Some (mkFile 1000 three_lines)) 1600 [].

Section Program.

(** [ET.fromstring]: [None] when the text is not well-formed XML. *)
Variable fromstring : string -> option Element.

(** [time.strftime("%Y-%m-%d %H:%M:%S")] at a given time. *)
Variable strftime : float -> string.

Definition ET_fromstring (s : string) : M Element :=
  match fromstring s with
  | Some root => ret root
  | None => raise ParseError
  end.

Definition load_session : M (option string) :=
  present <- path_exists ;;
  if negb present then ret None
  else
    now <- time_time ;;
    m <- getmtime ;;
    if float_gt (age_minutes now m) SESSION_LIFETIME_MIN then ret None
    else
      data <- read_file ;;
      ret (Some (strip data)).

Definition save_session (token : string) : M unit := write_file token.

(** The [for] loop of [session_valid] over the [Error] elements. *)
Fixpoint scan_errors (elems : list Element) : M bool :=
  match elems with
  | [] => ret true
  | elem :: rest =>
      match text elem with
      | None => raise TypeError
      | Some t =>
          if contains INVALID_SESSION t then ret false else scan_errors rest
      end
  end.

Definition probe_params (session_key : string) : params :=
  [("s", session_key); ("callsign", "TEST")].

Definition session_valid (session_key : string) : M bool :=
  try_except
    (resp <- requests_get (probe_params session_key) ;;
     root <- ET_fromstring resp ;;
     scan_errors (iter "Error" root))
    (fun _ => ret false).

(** Whether the probe for [session_key] succeeds in [w]: the request gets a
    response, the response parses, and no [Error] element of it is
    [rejecting]. *)
Definition probe_accepts (session_key : string) (w : World) : bool :=
  match net w (sent w) (probe_params session_key) with
  | None => false
  | Some body =>
      match fromstring body with
      | None => false
      | Some root => negb (existsb rejecting (iter "Error" root))
      end
  end.

Definition exchange_params (username password : string) : params :=
  [("username", username); ("password", password)].

Definition new_session : M string :=
  print OutUsernamePrompt ;;
  line <- input ;;
  let username := strip line in
  password <- getpass ;;
  resp <- requests_get (exchange_params username password) ;;
  root <- ET_fromstring resp ;;
  match find "Key" root with
  | None =>
      print OutFailedKey ;;
      print (OutBody resp) ;;
      sys_exit 1
  | Some key_elem =>
      match text key_elem with
      | None => raise AttributeError
      | Some t =>
          let session_key := strip t in
          save_session session_key ;;
          print (OutGotKey session_key) ;;
          ret session_key
      end
  end.

(** The fall-back of [get_session]: announce it and ask for a new session. *)
Definition fetch_new : M string :=
  print OutExpiredOrMissing ;;
  new_session.

(** [if session and session_valid(session)]: the probe runs only for a
    session that is neither [None] nor empty. *)
Definition get_session : M string :=
  session <- load_session ;;
  match session with
  | None => fetch_new
  | Some s =>
      if nonempty s then
        valid <- session_valid s ;;
        if valid then
          print OutUsingCached ;;
          ret s
        else fetch_new
      else fetch_new
  end.

(** The value [load_session] returns in [w]. *)
Definition cached_token (w : World) : option string :=
  match session_file w with
  | None => None
  | Some f =>
      if too_old (clock w) (mtime f)
      then None
      else Some (strip (content f))
  end.

(** The two ways in which [get_session] can hand out [tok], leaving the
    world [w']: the cached token, which is fresh, not empty and accepted by
    the probe; or a token that [new_session] obtained and wrote to the
    session file in this run. *)
Definition reused (w : World) (tok : string) (w' : World) : Prop :=
  exists f,
    session_file w = Some f /\
    too_old (clock w) (mtime f) = false /\
    tok = strip (content f) /\ tok <> "" /\
    session_valid tok w = (Ret true, requested (probe_params tok) w) /\
    w' = log (Stdout OutUsingCached) (requested (probe_params tok) w).

Definition minted (w : World) (tok : string) (w' : World) : Prop :=
  exists w0,
    new_session w0 = (Ret tok, w') /\
    session_file w0 = session_file w /\
    session_file w' = Some (mkFile (clock w') tok) /\
    In (FileWrite tok) (trace w').

(** The session file is older than the lifetime window. *)
Definition expired (w : World) : Prop :=
  exists f,
    session_file w = Some f /\
    too_old (clock w) (mtime f) = true.

(** The probe answers false for the token held in the session file. *)
Definition probe_rejected (w : World) : Prop :=
  exists f w2,
    session_file w = Some f /\
    session_valid (strip (content f)) w = (Ret false, w2).

(** What [get(t)] evaluates to on [root]: [None] stands for the
    [AttributeError] of [None.strip()]. *)
Definition field_value (root : Element) (t : string) : option string :=
  match find t root with
  | Some elem =>
      match text elem with
      | Some x => Some (strip x)
      | None => None
      end
  | None => Some ""
  end.

(** The tags [lookup_call] extracts, in the order it evaluates them. *)
Definition FIELDS : list string :=
  ["call"; "fname"; "name"; "addr2"; "state"; "country"].

Definition lookup_params (session callsign : string) : params :=
  [("s", session); ("callsign", callsign)].

(** The inner [get(tag)] of [lookup_call]. *)
Definition get (root : Element) (t : string) : M string :=
  match find t root with
  | Some elem =>
      match text elem with
      | Some x => ret (strip x)
      | None => raise AttributeError
      end
  | None => ret ""
  end.

Definition lookup_call (session callsign : string) : M Lookup :=
  resp <- requests_get (lookup_params session callsign) ;;
  root <- ET_fromstring resp ;;
  match find "Error" root with
  | Some _ =>
      print OutExpiredMidQuery ;;
      sys_exit 1
  | None =>
      v_call <- get root "call" ;;
      v_fname <- get root "fname" ;;
      v_name <- get root "name" ;;
      v_addr <- get root "addr2" ;;
      v_state <- get root "state" ;;
      v_country <- get root "country" ;;
      now <- time_time ;;
      ret (mkLookup v_call v_fname v_name v_addr v_state v_country
                    (strftime now))
  end.

(** The record [lookup_call] builds from [root] at time [now], [None] when
    one of the six [get] calls raises. *)
Definition record_of (root : Element) (now : float) : option Lookup :=
  match field_value root "call", field_value root "fname",
        field_value root "name", field_value root "addr2",
        field_value root "state", field_value root "country" with
  | Some v_call, Some v_fname, Some v_name, Some v_addr, Some v_state,
    Some v_country =>
      Some (mkLookup v_call v_fname v_name v_addr v_state v_country
                     (strftime now))
  | _, _, _, _, _, _ => None
  end.

(** *** Exports and the main program *)

(** [str.upper] *)
Variable upper : string -> string.

(** What [csv.writer] writes for one row, line terminator included. *)
Variable csv_row : list string -> string.

(** [json.load] on the text of a file: [None] for [JSONDecodeError]. *)
Variable json_load : string -> option JSON.

(** [json.dump(data, f, indent=2)] *)
Variable json_dump : JSON -> string.

Definition export_csv (record : Lookup) (filename : string) : P unit :=
  (existed <- file_exists filename ;;
   (if negb existed then append_text filename (csv_row CSV_FIELDNAMES)
    else pret tt) ;;
   append_text filename (csv_row (record_values record)) ;;
   say (CsvUpdated filename))%sys.

(** The first half of [export_json]: what the file holds, or the empty
    list. *)
Definition load_data (filename : string) : P JSON :=
  (existed <- file_exists filename ;;
   if existed then
     data <- read_text filename ;;
     match json_load data with
     | Some v => pret v
     | None => pret (JArray [])
     end
   else pret (JArray []))%sys.

Definition export_json (record : Lookup) (filename : string) : P unit :=
  (data <- load_data filename ;;
   data' <- list_append data (record_json record) ;;
   write_text filename (json_dump data') ;;
   say (JsonUpdated filename))%sys.

(** The main program, from the parsed command line on. *)
Definition main (args : Args) : P unit :=
  (let callsign := upper (arg_callsign args) in
   session <- lift get_session ;;
   result <- lift (lookup_call session callsign) ;;
   say ResultBanner ;;
   say (ResultCall (call result)) ;;
   say (ResultName (fname result) (name result)) ;;
   say (ResultLocation (addr result) (state result)) ;;
   say (ResultCountry (country result)) ;;
   say ResultBlank ;;
   (if arg_csv args || arg_both args then export_csv result CSV_FILE
    else pret tt) ;;
   (if arg_json args || arg_both args then export_json result JSON_FILE
    else pret tt))%sys.

(** The texts of [l] one after the other. *)
Definition join (l : list string) : string :=
  fold_right String.append "" l.

(** One export of each record of [rs] to the same file, in order: what a
    series of runs with [--csv] does to the file. *)
Fixpoint export_csv_all (rs : list Lookup) (filename : string) : P unit :=
  match rs with
  | [] => pret tt
  | r :: rest =>
      (export_csv r filename ;; export_csv_all rest filename)%sys
  end.

(** The result lines [main] prints for a record. *)
Definition result_lines (r : Lookup) : list notice :=
  [ResultBanner; ResultCall (call r); ResultName (fname r) (name r);
   ResultLocation (addr r) (state r); ResultCountry (country r); ResultBlank].

(** The two [if] statements that end [main]. *)
Definition exports (args : Args) (r : Lookup) : P unit :=
  ((if arg_csv args || arg_both args then export_csv r CSV_FILE
    else pret tt) ;;
   (if arg_json args || arg_both args then export_json r JSON_FILE
    else pret tt))%sys.

(** ** Facts about text *)

Lemma lstrip_no_leading_space (s : string) :
  no_leading_space (lstrip s) = true.
Proof.
  induction s as [|c s IH]; simpl; auto.
  destruct (is_space c) eqn:E; auto. simpl. now rewrite E.
Qed.

Lemma lstrip_fixed (s : string) :
  no_leading_space s = true -> lstrip s = s.
Proof.
  destruct s as [|c s]; simpl; auto.
  now destruct (is_space c).
Qed.

Lemma rstrip_no_leading_space (s : string) :
  no_leading_space s = true -> no_leading_space (rstrip s) = true.
Proof.
  destruct s as [|c s]; simpl; auto.
  intros H. destruct (rstrip s); simpl; auto.
  destruct (is_space c) eqn:E; simpl; auto. now rewrite E.
Qed.

Lemma rstrip_idempotent (s : string) : rstrip (rstrip s) = rstrip s.
Proof.
  induction s as [|c s IH]; simpl; auto.
  destruct (rstrip s) as [|a r] eqn:E.
  - destruct (is_space c) eqn:Ec; simpl; auto. now rewrite Ec.
  - change (rstrip (String c (String a r))) with
      (match rstrip (String a r) with
       | EmptyString => if is_space c then EmptyString else String c EmptyString
       | r' => String c r'
       end).
    now rewrite IH.
Qed.

(** Stripping twice is stripping once: a token that was stripped before it
    was saved is read back unchanged. *)
Lemma strip_idempotent (s : string) : strip (strip s) = strip s.
Proof.
  unfold strip.
  rewrite (lstrip_fixed (rstrip (lstrip s))).
  - apply rstrip_idempotent.
  - apply rstrip_no_leading_space, lstrip_no_leading_space.
Qed.

Lemma lstrip_all_space (s : string) :
  all_space s = true -> lstrip s = EmptyString.
Proof.
  induction s as [|c s IH]; simpl; auto.
  destruct (is_space c); simpl; auto. discriminate.
Qed.

Lemma rstrip_empty (s : string) :
  rstrip s = EmptyString -> all_space s = true.
Proof.
  induction s as [|c s IH]; simpl; auto.
  destruct (rstrip s); try discriminate.
  destruct (is_space c); try discriminate.
  intros _. now rewrite IH.
Qed.

Lemma lstrip_all_space_inv (s : string) :
  all_space (lstrip s) = true -> all_space s = true.
Proof.
  induction s as [|c s IH]; simpl; auto.
  destruct (is_space c) eqn:E; simpl; auto.
  now rewrite E.
Qed.

(** [s.strip()] is empty exactly when [s] is empty or white space only. *)
Lemma strip_empty_iff (s : string) :
  strip s = EmptyString <-> all_space s = true.
Proof.
  unfold strip. split; intros H.
  - apply lstrip_all_space_inv, rstrip_empty, H.
  - now rewrite lstrip_all_space.
Qed.

Lemma universal_newlines_no_cr (s : string) :
  has_cr s = false -> universal_newlines s = s.
Proof.
  induction s as [|c s IH]; simpl; auto.
  destruct (Ascii.eqb c CR); simpl; [discriminate |].
  intros H. now rewrite IH.
Qed.

Lemma nonempty_false (s : string) : nonempty s = false <-> s = EmptyString.
Proof. destruct s; simpl; split; congruence. Qed.

Lemma starts_with_iff (p s : string) :
  starts_with p s = true <-> exists post : string, s = (p ++ post)%string.
Proof.
  revert s. induction p as [|a p IH]; intros s; simpl.
  - split; eauto.
  - destruct s as [|b s].
    + split; [discriminate | intros [post H]; discriminate].
    + rewrite andb_true_iff, Ascii.eqb_eq, IH. split.
      * intros [-> [post ->]]. now exists post.
      * intros [post H]. injection H as -> ->. eauto.
Qed.

(** The boolean test of the source decides occurrence as a substring. *)
Lemma contains_iff (sub s : string) :
  contains sub s = true <-> occurs_in sub s.
Proof.
  unfold occurs_in. split.
  - induction s as [|c s IH]; simpl; rewrite orb_true_iff.
    + intros [H | H]; [| discriminate].
      apply starts_with_iff in H as [post ->]. now exists EmptyString, post.
    + intros [H | H].
      * apply starts_with_iff in H as [post H]. exists EmptyString, post.
        now rewrite H.
      * destruct (IH H) as (pre & post & ->). now exists (String c pre), post.
  - intros (pre & post & ->). induction pre as [|c pre IH].
    + change (contains sub (sub ++ post) = true).
      assert (H : starts_with sub (sub ++ post) = true)
        by (apply starts_with_iff; eauto).
      destruct (sub ++ post)%string; simpl; now rewrite H.
    + simpl. rewrite IH. apply orb_true_r.
Qed.

(** ** Facts about elements *)

Lemma find_Some (t : string) (root e : Element) :
  find t root = Some e -> In e (descendants root) /\ tag e = t.
Proof.
  unfold find. intros H. apply find_some in H as [H1 H2].
  split; auto. now apply String.eqb_eq.
Qed.

(** [find] answers [None] exactly when no element below the root has the
    tag. *)
Lemma find_None (t : string) (root : Element) :
  find t root = None <->
  forall e, In e (descendants root) -> tag e <> t.
Proof.
  unfold find. split.
  - intros H e He. apply (find_none _ _ H) in He.
    now apply String.eqb_neq.
  - intros H. destruct (List.find (has_tag t) (descendants root)) eqn:E; auto.
    apply find_some in E as [H1 H2]. apply String.eqb_eq in H2.
    now apply H in H1.
Qed.

Lemma find_present (t : string) (root e : Element) :
  In e (descendants root) -> tag e = t -> exists e', find t root = Some e'.
Proof.
  intros He Ht. destruct (find t root) eqn:E; eauto.
  rewrite find_None in E. now apply E in He.
Qed.

Lemma iter_In (t : string) (root e : Element) :
  In e (iter t root) <-> In e (iter_all root) /\ tag e = t.
Proof.
  unfold iter. rewrite filter_In. unfold has_tag. now rewrite String.eqb_eq.
Qed.

Lemma rejecting_iff (e : Element) :
  rejecting e = true <->
  text e = None \/ exists t, text e = Some t /\ occurs_in INVALID_SESSION t.
Proof.
  unfold rejecting. destruct (text e) as [t|].
  - rewrite contains_iff. split.
    + intros H. right. eauto.
    + intros [H | (t' & H & Ht)]; congruence.
  - split; auto.
Qed.

(** ** Facts about runs *)

Lemma load_session_run (w : World) :
  load_session w = (Ret (cached_token w), w).
Proof.
  unfold cached_token, load_session, bind, path_exists, time_time, getmtime, read_file, ret.
  destruct (session_file w) as [f|] eqn:E; simpl; auto.
  rewrite E. unfold too_old.
  destruct (float_gt _ _); auto.
  now rewrite E.
Qed.

Lemma scan_errors_clean (elems : list Element) (w : World) :
  existsb rejecting elems = false -> scan_errors elems w = (Ret true, w).
Proof.
  induction elems as [|e l IH]; simpl; auto.
  rewrite orb_false_iff. intros [He Hl]. unfold rejecting in He.
  destruct (text e); try discriminate. rewrite He. auto.
Qed.

Lemma scan_errors_rejecting (elems : list Element) (w : World) :
  existsb rejecting elems = true ->
  scan_errors elems w = (Ret false, w) \/
  scan_errors elems w = (Raise TypeError, w).
Proof.
  induction elems as [|e l IH]; simpl; try discriminate.
  unfold rejecting at 1. destruct (text e) as [t|]; auto.
  destruct (contains INVALID_SESSION t); simpl; auto.
Qed.

(** [session_valid] always returns: one request is sent, nothing else
    changes, and no exception escapes. *)
Lemma session_valid_run (session_key : string) (w : World) :
  session_valid session_key w =
  (Ret (probe_accepts session_key w),
   requested (probe_params session_key) w).
Proof.
  unfold session_valid, try_except, bind, requests_get, ET_fromstring,
    probe_accepts, requested.
  destruct (net w (sent w) (probe_params session_key)) as [body|]; auto.
  destruct (fromstring body) as [root|]; auto.
  unfold ret at 1.
  destruct (existsb rejecting (iter "Error" root)) eqn:E.
  - destruct (scan_errors_rejecting _
                (log (HttpGet (probe_params session_key)) (count_request w)) E)
      as [-> | ->]; auto.
  - now rewrite scan_errors_clean.
Qed.

Lemma cached_token_Some (w : World) (s : string) :
  cached_token w = Some s <->
  exists f, session_file w = Some f /\
            too_old (clock w) (mtime f) = false /\
            s = strip (content f).
Proof.
  unfold cached_token. destruct (session_file w) as [f|].
  - destruct (too_old (clock w) (mtime f)) eqn:E.
    + split; [discriminate |].
      intros (f' & Hf & Hle & _). injection Hf as <-. congruence.
    + split.
      * intros H. injection H as <-. eauto.
      * intros (f' & Hf & _ & ->). now injection Hf as <-.
  - split; [discriminate | intros (f & Hf & _); discriminate].
Qed.

Lemma cached_token_None (w : World) :
  cached_token w = None <->
  session_file w = None \/
  exists f, session_file w = Some f /\
            too_old (clock w) (mtime f) = true.
Proof.
  unfold cached_token. destruct (session_file w) as [f|].
  - destruct (too_old (clock w) (mtime f)) eqn:E.
    + split; eauto.
    + split; [discriminate |].
      intros [H | (f' & Hf & Hlt)]; [discriminate |].
      injection Hf as <-. congruence.
  - split; auto.
Qed.

(** ** The session cache *)

(** C2, amended.  For a session file that can be read as text,
    [load_session] returns a token exactly when the file exists and is not
    older than the window, that is, when the test
    [age_minutes > SESSION_LIFETIME_MIN] of the code fails; the token is
    the text of the file as text mode reads it (CR LF and CR turned into
    LF), without surrounding white space, which is the persisted string
    itself when that string is stripped and holds no carriage return.  It
    returns [None] exactly when the file is absent or older than the
    window, whatever the file holds. *)
Theorem load_session_fresh_or_absent (w : World) :
  (forall tok,
     load_session w = (Ret (Some tok), w) <->
     exists f, session_file w = Some f /\
               too_old (clock w) (mtime f) = false /\
               tok = strip (content f)) /\
  (load_session w = (Ret None, w) <->
   session_file w = None \/
   exists f, session_file w = Some f /\
             too_old (clock w) (mtime f) = true) /\
  (forall f,
     session_file w = Some f ->
     too_old (clock w) (mtime f) = false ->
     has_cr (raw f) = false ->
     strip (raw f) = raw f ->
     load_session w = (Ret (Some (raw f)), w)).
Proof.
  rewrite load_session_run. split; [| split].
  - intros tok. rewrite <- cached_token_Some. split; congruence.
  - rewrite <- cached_token_None. split; congruence.
  - intros f Hf Hage Hcr Hs. f_equal. f_equal. apply cached_token_Some.
    exists f. repeat split; auto.
    unfold content. now rewrite (universal_newlines_no_cr _ Hcr).
Qed.

(** ** The validation probe *)

(** C4, amended.  [session_valid] always returns, after exactly one request.
    It returns false exactly when the request fails, or the response does
    not parse, or some [Error] element of the response (the root included)
    has no text or has a text containing the marker; otherwise, and so for
    every [Error] text without the marker, it returns true. *)
Theorem session_valid_false_iff (session_key : string) (w : World) :
  exists b,
    session_valid session_key w =
      (Ret b, requested (probe_params session_key) w) /\
    (b = false <->
     net w (sent w) (probe_params session_key) = None \/
     (exists body,
        net w (sent w) (probe_params session_key) = Some body /\
        fromstring body = None) \/
     (exists body root e,
        net w (sent w) (probe_params session_key) = Some body /\
        fromstring body = Some root /\
        In e (iter_all root) /\ tag e = "Error" /\
        (text e = None \/
         exists t, text e = Some t /\ occurs_in INVALID_SESSION t))).
Proof.
  exists (probe_accepts session_key w). split; [apply session_valid_run |].
  unfold probe_accepts.
  destruct (net w (sent w) (probe_params session_key)) as [body|].
  2: { split; auto. }
  destruct (fromstring body) as [root|] eqn:Ep.
  2: { split; auto. intros _. right. left. eauto. }
  rewrite negb_false_iff, existsb_exists. split.
  - intros (e & He & Hr). apply iter_In in He as [He Ht].
    apply rejecting_iff in Hr. right. right. exists body, root, e. auto.
  - intros [H | [(b' & H & Hn) | (b' & r' & e & H & Hr & He & Ht & Hx)]];
      try discriminate.
    + injection H as <-. congruence.
    + injection H as <-. assert (r' = root) as -> by congruence.
      exists e. split; [now apply iter_In | now apply rejecting_iff].
Qed.

(** ** Acquiring a new session *)

(** What [new_session] does once the user has answered both prompts and
    the service has sent a well-formed response. *)
Lemma new_session_run (w : World) (line pw body : string)
    (rest_in rest_tty : list string) (root : Element) :
  stdin w = line :: rest_in ->
  tty w = pw :: rest_tty ->
  net w (sent w) (exchange_params (strip line) pw) = Some body ->
  fromstring body = Some root ->
  let w4 := requested (exchange_params (strip line) pw) (prompted line pw w) in
  new_session w =
  match find "Key" root with
  | None =>
      (Exit 1, log (Stdout (OutBody body)) (log (Stdout OutFailedKey) w4))
  | Some key_elem =>
      match text key_elem with
      | None => (Raise AttributeError, w4)
      | Some t =>
          (Ret (strip t),
           log (Stdout (OutGotKey (strip t)))
             (log (FileWrite (strip t))
                (set_session_file (Some (mkFile (clock w) (strip t))) w4)))
      end
  end.
Proof.
  intros Hin Htty Hnet Hparse w4. subst w4.
  unfold new_session, bind, print, input, getpass, requests_get,
    ET_fromstring, requested, prompted.
  simpl. rewrite Hin. simpl. rewrite Htty. simpl. rewrite Hnet, Hparse.
  unfold ret at 1.
  destruct (find "Key" root) as [k|]; [| reflexivity].
  destruct (text k); reflexivity.
Qed.

(** A session that [new_session] returns was written to the session file
    by that very call, at the current time. *)
Lemma new_session_returns (w0 w' : World) (tok : string) :
  new_session w0 = (Ret tok, w') ->
  session_file w' = Some (mkFile (clock w0) tok) /\
  clock w' = clock w0 /\
  In (FileWrite tok) (trace w').
Proof.
  unfold new_session, bind, print, input, getpass, requests_get,
    ET_fromstring, save_session, write_file.
  simpl. destruct (stdin w0) as [|line rest_in]; [discriminate |]. simpl.
  destruct (tty w0) as [|pw rest_tty]; [discriminate |]. simpl.
  destruct (net w0 (sent w0) (exchange_params (strip line) pw)) as [body|];
    [| discriminate].
  destruct (fromstring body) as [root|]; [| discriminate].
  unfold ret at 1.
  destruct (find "Key" root) as [k|]; [| discriminate].
  destruct (text k) as [t|]; [| discriminate].
  simpl. intros H. injection H as <- <-. simpl. repeat split.
  apply in_or_app. left. apply in_or_app. right. now left.
Qed.

(** C7, amended.  When the first [Key] element below the root of the
    exchange response carries a text which, stripped, holds no carriage
    return, [new_session] writes that stripped text to the session file,
    returns exactly what it wrote, and a later [load_session] within the
    lifetime window reads the same token back. *)
Theorem new_session_round_trip (w : World) (line pw body t : string)
    (rest_in rest_tty : list string) (root key_elem : Element) :
  stdin w = line :: rest_in ->
  tty w = pw :: rest_tty ->
  net w (sent w) (exchange_params (strip line) pw) = Some body ->
  fromstring body = Some root ->
  find "Key" root = Some key_elem ->
  text key_elem = Some t ->
  has_cr (strip t) = false ->
  exists w',
    new_session w = (Ret (strip t), w') /\
    session_file w' = Some (mkFile (clock w) (strip t)) /\
    trace w' =
      trace w ++
      [Stdout OutUsernamePrompt; ReadStdin line; Getpass pw;
       HttpGet (exchange_params (strip line) pw);
       FileWrite (strip t); Stdout (OutGotKey (strip t))] /\
    forall later,
      session_file later = session_file w' ->
      too_old (clock later) (clock w) = false ->
      load_session later = (Ret (Some (strip t)), later).
Proof.
  intros Hin Htty Hnet Hparse Hkey Htext Hcr.
  rewrite (new_session_run w line pw body rest_in rest_tty root
             Hin Htty Hnet Hparse).
  rewrite Hkey, Htext. eexists. split; [reflexivity |].
  split; [reflexivity |]. split.
  - simpl. repeat rewrite <- app_assoc. reflexivity.
  - intros later Hfile Hage. rewrite load_session_run. unfold cached_token.
    rewrite Hfile. simpl. rewrite Hage. unfold content. simpl.
    rewrite (universal_newlines_no_cr _ Hcr).
    now rewrite strip_idempotent.
Qed.

(** C8, amended.  When the exchange response is well-formed XML and no
    element below its root is a [Key] element, [new_session] prints the failure message and the raw response
    body and leaves through [sys.exit(1)]; the session file is not
    touched. *)
Theorem new_session_without_key (w : World) (line pw body : string)
    (rest_in rest_tty : list string) (root : Element) :
  stdin w = line :: rest_in ->
  tty w = pw :: rest_tty ->
  net w (sent w) (exchange_params (strip line) pw) = Some body ->
  fromstring body = Some root ->
  (forall e, In e (descendants root) -> tag e <> "Key") ->
  exists w',
    new_session w = (Exit 1, w') /\
    trace w' =
      trace w ++
      [Stdout OutUsernamePrompt; ReadStdin line; Getpass pw;
       HttpGet (exchange_params (strip line) pw);
       Stdout OutFailedKey; Stdout (OutBody body)] /\
    session_file w' = session_file w.
Proof.
  intros Hin Htty Hnet Hparse Hkey.
  rewrite (new_session_run w line pw body rest_in rest_tty root
             Hin Htty Hnet Hparse).
  apply find_None in Hkey. rewrite Hkey.
  eexists. split; [reflexivity |]. split; [| reflexivity].
  simpl. repeat rewrite <- app_assoc. reflexivity.
Qed.

(** Everything [new_session] does starts with the prompt for the user
    name, and none of its requests is a probe. *)
Lemma new_session_no_probe (w w' : World) (o : outcome string) :
  new_session w = (o, w') ->
  exists evs,
    trace w' = trace w ++ Stdout OutUsernamePrompt :: evs /\
    forall s, ~ In (HttpGet (probe_params s)) evs.
Proof.
  unfold new_session, bind, print, input, getpass, requests_get,
    ET_fromstring, save_session, write_file, sys_exit, raise, ret.
  simpl. destruct (stdin w) as [|line rest_in]; simpl.
  { intros H. injection H as <- <-. exists []. split; auto. }
  destruct (tty w) as [|pw rest_tty]; simpl.
  { intros H. injection H as <- <-. simpl. eexists. split.
    - rewrite <- app_assoc. reflexivity.
    - intros s [H | []]. discriminate. }
  destruct (net w (sent w) (exchange_params (strip line) pw)) as [body|].
  2: { intros H. injection H as <- <-. simpl. eexists. split.
       - repeat rewrite <- app_assoc. reflexivity.
       - simpl. intros s [H | [H | [H | []]]]; discriminate. }
  destruct (fromstring body) as [root|].
  2: { intros H. injection H as <- <-. simpl. eexists. split.
       - repeat rewrite <- app_assoc. reflexivity.
       - simpl. intros s [H | [H | [H | []]]]; discriminate. }
  destruct (find "Key" root) as [k|].
  2: { intros H. injection H as <- <-. simpl. eexists. split.
       - repeat rewrite <- app_assoc. reflexivity.
       - simpl. intros s [H | [H | [H | [H | [H | []]]]]]; discriminate. }
  destruct (text k) as [t|].
  2: { intros H. injection H as <- <-. simpl. eexists. split.
       - repeat rewrite <- app_assoc. reflexivity.
       - simpl. intros s [H | [H | [H | []]]]; discriminate. }
  simpl. intros H. injection H as <- <-. simpl. eexists. split.
  - repeat rewrite <- app_assoc. reflexivity.
  - simpl. intros s [H | [H | [H | [H | [H | []]]]]]; discriminate.
Qed.

(** ** Obtaining a valid session *)

Lemma fetch_new_run (w : World) :
  fetch_new w = new_session (log (Stdout OutExpiredOrMissing) w).
Proof. reflexivity. Qed.

(** [get_session], one case after the other. *)
Lemma get_session_run (w : World) :
  get_session w =
  match cached_token w with
  | None => fetch_new w
  | Some s =>
      if nonempty s then
        if probe_accepts s w
        then (Ret s, log (Stdout OutUsingCached) (requested (probe_params s) w))
        else fetch_new (requested (probe_params s) w)
      else fetch_new w
  end.
Proof.
  unfold get_session, bind. rewrite load_session_run.
  destruct (cached_token w) as [s|]; auto.
  destruct (nonempty s); auto.
  rewrite session_valid_run. now destruct (probe_accepts s w).
Qed.

Lemma fetch_new_minted (w0 w w' : World) (tok : string) :
  session_file w0 = session_file w ->
  fetch_new w0 = (Ret tok, w') -> minted w tok w'.
Proof.
  intros Hf H. rewrite fetch_new_run in H.
  destruct (new_session_returns _ _ _ H) as (H1 & H2 & H3).
  exists (log (Stdout OutExpiredOrMissing) w0). repeat split; auto.
  now rewrite H2.
Qed.

(** C1. Whenever [get_session] returns a token, that token is either the
    cached one, whose file is at most 60 minutes old and which the probe
    accepted in this run, or one that [new_session] obtained and wrote to
    the session file in this run.  So when the session file is older than
    the window, or the probe answers false for the cached token, the token
    handed out is a newly acquired one. *)
Theorem get_session_never_stale (w w' : World) (tok : string) :
  get_session w = (Ret tok, w') ->
  (reused w tok w' \/ minted w tok w') /\
  (expired w -> minted w tok w') /\
  (probe_rejected w -> minted w tok w').
Proof.
  rewrite get_session_run. intros H.
  assert (Hcases :
    (exists f, session_file w = Some f /\
       too_old (clock w) (mtime f) = false /\
       tok = strip (content f) /\ tok <> "" /\
       probe_accepts tok w = true /\
       w' = log (Stdout OutUsingCached) (requested (probe_params tok) w))
    \/ minted w tok w').
  { destruct (cached_token w) as [s|] eqn:Ec.
    2: { right. now apply (fetch_new_minted w). }
    destruct (nonempty s) eqn:En.
    2: { right. now apply (fetch_new_minted w). }
    destruct (probe_accepts s w) eqn:Ep.
    2: { right. now apply (fetch_new_minted (requested (probe_params s) w)). }
    injection H as <- <-. left.
    apply cached_token_Some in Ec as (f & Hf & Hage & Hs).
    exists f. repeat split; auto.
    intros ->. discriminate. }
  destruct Hcases as [(f & Hf & Hage & Hs & Hne & Hp & Hw) | Hm]; auto.
  split; [| split].
  - left. exists f. repeat split; auto.
    rewrite session_valid_run. now rewrite Hp.
  - intros (f' & Hf' & Hold). rewrite Hf in Hf'. injection Hf' as <-.
    congruence.
  - intros (f' & w2 & Hf' & Hrej). rewrite Hf in Hf'. injection Hf' as <-.
    rewrite <- Hs, session_valid_run, Hp in Hrej. discriminate.
Qed.

(** C3. When the session file is at most 60 minutes old, holds a token
    (its stripped content is not empty) and the probe accepts that token,
    [get_session] returns it; the run sends the probe and prints one
    message, reads nothing from the user and leaves the file as it was. *)
Theorem get_session_reuses_cached (w w2 : World) (f : File) (tok : string) :
  session_file w = Some f ->
  too_old (clock w) (mtime f) = false ->
  tok = strip (content f) ->
  tok <> "" ->
  session_valid tok w = (Ret true, w2) ->
  exists w',
    get_session w = (Ret tok, w') /\
    trace w' = trace w ++ [HttpGet (probe_params tok); Stdout OutUsingCached] /\
    stdin w' = stdin w /\ tty w' = tty w /\
    session_file w' = session_file w.
Proof.
  intros Hf Hage Htok Hne Hv.
  assert (Hc : cached_token w = Some tok) by (apply cached_token_Some; eauto).
  rewrite session_valid_run in Hv. injection Hv as Hp _.
  rewrite get_session_run, Hc.
  destruct tok as [|c tok']; [congruence |]. simpl nonempty. cbv iota.
  rewrite Hp. eexists. split; [reflexivity |]. repeat split.
  simpl. now rewrite <- app_assoc.
Qed.

(** C10. When the session file is at most 60 minutes old and holds nothing
    but white space, [load_session] returns the empty string and
    [get_session] goes on exactly as for a missing file: it prints the
    notice and calls [new_session], and no probe is sent anywhere in the
    run. *)
Theorem get_session_blank_cache (w : World) (f : File) :
  session_file w = Some f ->
  too_old (clock w) (mtime f) = false ->
  all_space (content f) = true ->
  load_session w = (Ret (Some ""), w) /\
  get_session w = new_session (log (Stdout OutExpiredOrMissing) w) /\
  forall o w',
    get_session w = (o, w') ->
    exists evs,
      trace w' =
        trace w ++ Stdout OutExpiredOrMissing :: Stdout OutUsernamePrompt :: evs /\
      forall s, ~ In (HttpGet (probe_params s)) evs.
Proof.
  intros Hf Hage Hblank.
  assert (Hc : cached_token w = Some "").
  { apply cached_token_Some. exists f. repeat split; auto.
    symmetry. now apply strip_empty_iff. }
  assert (Hg : get_session w = new_session (log (Stdout OutExpiredOrMissing) w)).
  { now rewrite get_session_run, Hc. }
  split; [now rewrite load_session_run, Hc |]. split; [exact Hg |].
  intros o w' H. rewrite Hg in H.
  apply new_session_no_probe in H as (evs & Ht & Hn).
  exists evs. split; auto. rewrite Ht. simpl. now rewrite <- app_assoc.
Qed.

(** ** The lookup *)

Lemma get_run (root : Element) (t : string) (w : World) :
  get root t w =
  match field_value root t with
  | Some v => (Ret v, w)
  | None => (Raise AttributeError, w)
  end.
Proof.
  unfold get, field_value. destruct (find t root) as [e|]; auto.
  now destruct (text e).
Qed.

(** Up to the test for an [Error] element. *)
Lemma lookup_call_run (session callsign body : string) (w : World)
    (root : Element) :
  net w (sent w) (lookup_params session callsign) = Some body ->
  fromstring body = Some root ->
  let w1 := requested (lookup_params session callsign) w in
  lookup_call session callsign w =
  match find "Error" root with
  | Some _ => (Exit 1, log (Stdout OutExpiredMidQuery) w1)
  | None =>
      (v_call <- get root "call" ;;
       v_fname <- get root "fname" ;;
       v_name <- get root "name" ;;
       v_addr <- get root "addr2" ;;
       v_state <- get root "state" ;;
       v_country <- get root "country" ;;
       now <- time_time ;;
       ret (mkLookup v_call v_fname v_name v_addr v_state v_country
                     (strftime now))) w1
  end.
Proof.
  intros Hnet Hparse w1. subst w1.
  unfold lookup_call, bind at 1, requests_get. rewrite Hnet.
  unfold bind at 1, ET_fromstring. rewrite Hparse. unfold ret at 1.
  now destruct (find "Error" root).
Qed.

(** A field element without text makes the whole lookup fail. *)
Lemma lookup_call_textless (session callsign body t : string) (w : World)
    (root : Element) :
  net w (sent w) (lookup_params session callsign) = Some body ->
  fromstring body = Some root ->
  find "Error" root = None ->
  In t FIELDS ->
  field_value root t = None ->
  lookup_call session callsign w =
  (Raise AttributeError, requested (lookup_params session callsign) w).
Proof.
  intros Hnet Hparse Herr Hin Hnone.
  rewrite (lookup_call_run _ _ _ _ _ Hnet Hparse), Herr.
  unfold bind.
  rewrite get_run. destruct (field_value root "call") eqn:E1; auto.
  rewrite get_run. destruct (field_value root "fname") eqn:E2; auto.
  rewrite get_run. destruct (field_value root "name") eqn:E3; auto.
  rewrite get_run. destruct (field_value root "addr2") eqn:E4; auto.
  rewrite get_run. destruct (field_value root "state") eqn:E5; auto.
  rewrite get_run. destruct (field_value root "country") eqn:E6; auto.
  simpl in Hin.
  destruct Hin as [<- | [<- | [<- | [<- | [<- | [<- | []]]]]]]; congruence.
Qed.

(** When every field element that is present carries a text, the lookup
    returns a record: the stripped text of each field that is present, the
    empty string for each one that is missing. *)
Lemma lookup_call_defaults (session callsign body : string) (w : World)
    (root : Element) :
  net w (sent w) (lookup_params session callsign) = Some body ->
  fromstring body = Some root ->
  find "Error" root = None ->
  (forall t e, In t FIELDS -> find t root = Some e -> text e <> None) ->
  exists r,
    lookup_call session callsign w =
      (Ret r, requested (lookup_params session callsign) w) /\
    field_value root "call" = Some (call r) /\
    field_value root "fname" = Some (fname r) /\
    field_value root "name" = Some (name r) /\
    field_value root "addr2" = Some (addr r) /\
    field_value root "state" = Some (state r) /\
    field_value root "country" = Some (country r) /\
    timestamp r = strftime (clock w) /\
    (find "call" root = None -> call r = "") /\
    (find "fname" root = None -> fname r = "") /\
    (find "name" root = None -> name r = "") /\
    (find "addr2" root = None -> addr r = "") /\
    (find "state" root = None -> state r = "") /\
    (find "country" root = None -> country r = "").
Proof.
  intros Hnet Hparse Herr Htext.
  assert (Hv : forall t, In t FIELDS -> exists v, field_value root t = Some v).
  { intros t Ht. unfold field_value.
    destruct (find t root) as [e|] eqn:Ef; eauto.
    specialize (Htext t e Ht Ef). destruct (text e); eauto. congruence. }
  assert (Hd : forall t v, field_value root t = Some v ->
                           find t root = None -> v = "").
  { unfold field_value. intros t v H Hf. rewrite Hf in H. congruence. }
  rewrite (lookup_call_run _ _ _ _ _ Hnet Hparse), Herr.
  destruct (Hv "call") as [v1 E1]; [simpl; auto 10 |].
  destruct (Hv "fname") as [v2 E2]; [simpl; auto 10 |].
  destruct (Hv "name") as [v3 E3]; [simpl; auto 10 |].
  destruct (Hv "addr2") as [v4 E4]; [simpl; auto 10 |].
  destruct (Hv "state") as [v5 E5]; [simpl; auto 10 |].
  destruct (Hv "country") as [v6 E6]; [simpl; auto 10 |].
  unfold bind.
  rewrite get_run, E1, get_run, E2, get_run, E3, get_run, E4, get_run, E5,
    get_run, E6.
  eexists. split; [reflexivity |]. simpl.
  repeat split; eauto.
Qed.

(** When some element below the root of the lookup response is an [Error]
    element, [lookup_call] prints its message and leaves through
    [sys.exit(1)]: no record is returned, the one request of the lookup is
    the only one sent, the user is not asked anything, the session file is
    not touched, and nothing that follows the call in the run is
    executed. *)
Theorem lookup_call_error_exits (session callsign body : string) (w : World)
    (root e : Element) :
  net w (sent w) (lookup_params session callsign) = Some body ->
  fromstring body = Some root ->
  In e (descendants root) ->
  tag e = "Error" ->
  exists w',
    lookup_call session callsign w = (Exit 1, w') /\
    trace w' =
      trace w ++
      [HttpGet (lookup_params session callsign); Stdout OutExpiredMidQuery] /\
    sent w' = S (sent w) /\
    stdin w' = stdin w /\ tty w' = tty w /\
    session_file w' = session_file w /\
    forall (B : Type) (k : Lookup -> M B),
      bind (lookup_call session callsign) k w = (Exit 1, w').
Proof.
  intros Hnet Hparse He Ht.
  destruct (find_present _ _ _ He Ht) as [e' Hf].
  pose proof (lookup_call_run _ _ _ _ _ Hnet Hparse) as Hrun.
  simpl in Hrun. rewrite Hf in Hrun.
  eexists. split; [exact Hrun |]. repeat split.
  - simpl. now rewrite <- app_assoc.
  - intros B k. unfold bind at 1. now rewrite Hrun.
Qed.

(** C9. In a lookup response without [Error] element, a field element that
    is present but has no text makes [get] raise [AttributeError], and with
    it the whole [lookup_call], which returns no record; the empty-string
    default is what [get] returns for a tag that no element below the root
    carries. *)
Theorem lookup_call_textless_field (session callsign body t : string)
    (w : World) (root e : Element) :
  net w (sent w) (lookup_params session callsign) = Some body ->
  fromstring body = Some root ->
  (forall x, In x (descendants root) -> tag x <> "Error") ->
  In t FIELDS ->
  find t root = Some e ->
  text e = None ->
  get root t w = (Raise AttributeError, w) /\
  lookup_call session callsign w =
    (Raise AttributeError, requested (lookup_params session callsign) w) /\
  forall t', (forall x, In x (descendants root) -> tag x <> t') ->
             get root t' w = (Ret "", w).
Proof.
  intros Hnet Hparse Herr Hin Hf Htext.
  assert (Hv : field_value root t = None).
  { unfold field_value. now rewrite Hf, Htext. }
  split; [| split].
  - now rewrite get_run, Hv.
  - apply find_None in Herr.
    exact (lookup_call_textless _ _ _ _ _ _ Hnet Hparse Herr Hin Hv).
  - intros t' Habsent. apply find_None in Habsent.
    rewrite get_run. unfold field_value. now rewrite Habsent.
Qed.

(** ** Further properties of the session functions *)

(** [new_session], one case after the other. *)
Lemma new_session_cases (w : World) :
  new_session w =
  match stdin w with
  | [] => (Raise EOFError, log (Stdout OutUsernamePrompt) w)
  | line :: rest_in =>
      match tty w with
      | [] =>
          (Raise EOFError,
           log (ReadStdin line)
             (set_stdin rest_in (log (Stdout OutUsernamePrompt) w)))
      | pw :: rest_tty =>
          let w4 :=
            requested (exchange_params (strip line) pw) (prompted line pw w) in
          match net w (sent w) (exchange_params (strip line) pw) with
          | None => (Raise RequestException, w4)
          | Some body =>
              match fromstring body with
              | None => (Raise ParseError, w4)
              | Some root =>
                  match find "Key" root with
                  | None =>
                      (Exit 1,
                       log (Stdout (OutBody body))
                         (log (Stdout OutFailedKey) w4))
                  | Some key_elem =>
                      match text key_elem with
                      | None => (Raise AttributeError, w4)
                      | Some t =>
                          (Ret (strip t),
                           log (Stdout (OutGotKey (strip t)))
                             (log (FileWrite (strip t))
                                (set_session_file
                                   (Some (mkFile (clock w) (strip t))) w4)))
                      end
                  end
              end
          end
      end
  end.
Proof.
  destruct (stdin w) as [|line rest_in] eqn:Hin.
  { unfold new_session, bind, print, input. simpl. now rewrite Hin. }
  destruct (tty w) as [|pw rest_tty] eqn:Htty.
  { unfold new_session, bind, print, input, getpass. simpl.
    rewrite Hin. simpl. now rewrite Htty. }
  destruct (net w (sent w) (exchange_params (strip line) pw)) as [body|] eqn:Hn.
  2: { unfold new_session, bind, print, input, getpass, requests_get,
         requested, prompted.
       simpl. rewrite Hin. simpl. rewrite Htty. simpl. now rewrite Hn. }
  destruct (fromstring body) as [root|] eqn:Hp.
  2: { unfold new_session, bind, print, input, getpass, requests_get,
         ET_fromstring, requested, prompted.
       simpl. rewrite Hin. simpl. rewrite Htty. simpl. now rewrite Hn, Hp. }
  exact (new_session_run w line pw body rest_in rest_tty root Hin Htty Hn Hp).
Qed.

Lemma new_session_file (w w' : World) (o : outcome string) :
  new_session w = (o, w') ->
  (exists tok, o = Ret tok /\ session_file w' = Some (mkFile (clock w) tok)) \/
  ((forall tok, o <> Ret tok) /\ session_file w' = session_file w).
Proof.
  rewrite new_session_cases.
  destruct (stdin w) as [|line rest_in].
  { intros H. injection H as <- <-. right. split; [discriminate | reflexivity]. }
  destruct (tty w) as [|pw rest_tty].
  { intros H. injection H as <- <-. right. split; [discriminate | reflexivity]. }
  cbv zeta.
  destruct (net w (sent w) (exchange_params (strip line) pw)) as [body|].
  2: { intros H. injection H as <- <-. right. split; [discriminate | reflexivity]. }
  destruct (fromstring body) as [root|].
  2: { intros H. injection H as <- <-. right. split; [discriminate | reflexivity]. }
  destruct (find "Key" root) as [k|].
  2: { intros H. injection H as <- <-. right. split; [discriminate | reflexivity]. }
  destruct (text k) as [t|]; intros H; injection H as <- <-.
  - left. exists (strip t). split; reflexivity.
  - right. split; [discriminate | reflexivity].
Qed.

(** When the session file differs after [new_session], the exchange
    response was well-formed and [find] selected a [Key] element with a
    text, which the file now holds, stripped. *)
Lemma new_session_found_key (w w' : World) (o : outcome string) :
  new_session w = (o, w') ->
  session_file w' = session_file w \/
  exists line pw rest_in rest_tty body root key_elem t,
    stdin w = line :: rest_in /\
    tty w = pw :: rest_tty /\
    net w (sent w) (exchange_params (strip line) pw) = Some body /\
    fromstring body = Some root /\
    find "Key" root = Some key_elem /\
    text key_elem = Some t /\
    In (HttpGet (exchange_params (strip line) pw)) (trace w') /\
    session_file w' = Some (mkFile (clock w) (strip t)).
Proof.
  rewrite new_session_cases.
  destruct (stdin w) as [|line rest_in] eqn:Hin.
  { intros H. injection H as <- <-. now left. }
  destruct (tty w) as [|pw rest_tty] eqn:Htty.
  { intros H. injection H as <- <-. now left. }
  cbv zeta.
  destruct (net w (sent w) (exchange_params (strip line) pw)) as [body|] eqn:Hn.
  2: { intros H. injection H as <- <-. now left. }
  destruct (fromstring body) as [root|] eqn:Hp.
  2: { intros H. injection H as <- <-. now left. }
  destruct (find "Key" root) as [k|] eqn:Hk.
  2: { intros H. injection H as <- <-. now left. }
  destruct (text k) as [t|] eqn:Ht; intros H; injection H as <- <-.
  2: { now left. }
  right. exists line, pw, rest_in, rest_tty, body, root, k, t.
  repeat split; auto.
  simpl. rewrite !in_app_iff. simpl. auto 10.
Qed.

(** X1. [new_session] writes the session file only after it has found a
    [Key] element with a text below the root of a well-formed exchange
    response, and what it writes is that text, stripped.  In every run in
    which the input ends, the request fails, the response does not parse,
    no [Key] element is found or the one found has no text, the session
    file stays what it was. *)
Theorem new_session_saves_only_a_found_key (w w' : World)
    (o : outcome string) :
  new_session w = (o, w') ->
  session_file w' = session_file w \/
  exists line pw rest_in rest_tty body root key_elem t,
    stdin w = line :: rest_in /\
    tty w = pw :: rest_tty /\
    net w (sent w) (exchange_params (strip line) pw) = Some body /\
    fromstring body = Some root /\
    find "Key" root = Some key_elem /\
    text key_elem = Some t /\
    In (HttpGet (exchange_params (strip line) pw)) (trace w') /\
    session_file w' = Some (mkFile (clock w) (strip t)).
Proof. apply new_session_found_key. Qed.

(** X2. [new_session] does not catch what [session_valid] catches: when the
    exchange request fails, or its response is not well-formed, the
    exception escapes, after the one request, and nothing is saved. *)
Theorem new_session_failure_escapes (w : World) (line pw : string)
    (rest_in rest_tty : list string) :
  stdin w = line :: rest_in ->
  tty w = pw :: rest_tty ->
  (net w (sent w) (exchange_params (strip line) pw) = None \/
   exists body,
     net w (sent w) (exchange_params (strip line) pw) = Some body /\
     fromstring body = None) ->
  exists e w',
    new_session w = (Raise e, w') /\
    (e = RequestException \/ e = ParseError) /\
    sent w' = S (sent w) /\
    session_file w' = session_file w.
Proof.
  intros Hin Htty H. rewrite new_session_cases, Hin, Htty. cbv zeta.
  destruct H as [-> | (body & -> & ->)]; eexists; eexists;
    (split; [reflexivity |]); auto.
Qed.

Lemma new_session_sent (w w' : World) (o : outcome string) :
  new_session w = (o, w') -> (sent w' <= S (sent w))%nat.
Proof.
  rewrite new_session_cases.
  destruct (stdin w) as [|line rest_in].
  { intros H. injection H as <- <-. simpl. auto. }
  destruct (tty w) as [|pw rest_tty].
  { intros H. injection H as <- <-. simpl. auto. }
  cbv zeta.
  destruct (net w (sent w) (exchange_params (strip line) pw)) as [body|].
  2: { intros H. injection H as <- <-. simpl. auto. }
  destruct (fromstring body) as [root|].
  2: { intros H. injection H as <- <-. simpl. auto. }
  destruct (find "Key" root) as [k|].
  2: { intros H. injection H as <- <-. simpl. auto. }
  destruct (text k) as [t|]; intros H; injection H as <- <-; simpl; auto.
Qed.

(** X3. When the session file is absent or older than the window,
    [get_session] goes straight to [new_session]: the stale token is never
    sent to the service, no probe occurs anywhere in the run. *)
Theorem get_session_no_probe_without_cache (w : World) :
  session_file w = None \/ expired w ->
  get_session w = new_session (log (Stdout OutExpiredOrMissing) w) /\
  forall o w',
    get_session w = (o, w') ->
    exists evs,
      trace w' =
        trace w ++ Stdout OutExpiredOrMissing :: Stdout OutUsernamePrompt :: evs /\
      forall s, ~ In (HttpGet (probe_params s)) evs.
Proof.
  intros H. apply cached_token_None in H.
  assert (Hg : get_session w = new_session (log (Stdout OutExpiredOrMissing) w)).
  { now rewrite get_session_run, H. }
  split; [exact Hg |].
  intros o w' Hr. rewrite Hg in Hr.
  apply new_session_no_probe in Hr as (evs & Ht & Hn).
  exists evs. split; auto. rewrite Ht. simpl. now rewrite <- app_assoc.
Qed.



Lemma get_session_sent (w w' : World) (o : outcome string) :
  get_session w = (o, w') -> (sent w' <= sent w + 2)%nat.
Proof.
  rewrite get_session_run.
  assert (Hn : forall w0, fetch_new w0 = (o, w') ->
                          (sent w' <= S (sent w0))%nat).
  { intros w0 H. rewrite fetch_new_run in H.
    now apply new_session_sent in H. }
  destruct (cached_token w) as [s|].
  2: { intros H. apply Hn in H. rewrite Nat.add_comm. simpl. auto. }
  destruct (nonempty s).
  2: { intros H. apply Hn in H. rewrite Nat.add_comm. simpl. auto. }
  destruct (probe_accepts s w).
  - intros H. injection H as <- <-. simpl. rewrite Nat.add_comm. simpl. auto.
  - intros H. apply Hn in H. simpl in H. rewrite Nat.add_comm. simpl. auto.
Qed.

(** X5. [get_session] sends at most two requests, the probe and the
    exchange, whatever the service answers: nothing is retried. *)
Theorem get_session_at_most_two_requests (w w' : World) (o : outcome string) :
  get_session w = (o, w') -> (sent w' <= sent w + 2)%nat.
Proof. apply get_session_sent. Qed.

(** ** Further properties of the lookup *)

(** [lookup_call], one case after the other. *)
Lemma lookup_call_cases (session callsign : string) (w : World) :
  lookup_call session callsign w =
  let w1 := requested (lookup_params session callsign) w in
  match net w (sent w) (lookup_params session callsign) with
  | None => (Raise RequestException, w1)
  | Some body =>
      match fromstring body with
      | None => (Raise ParseError, w1)
      | Some root =>
          match find "Error" root with
          | Some _ => (Exit 1, log (Stdout OutExpiredMidQuery) w1)
          | None =>
              match record_of root (clock w) with
              | Some r => (Ret r, w1)
              | None => (Raise AttributeError, w1)
              end
          end
      end
  end.
Proof.
  cbv zeta.
  destruct (net w (sent w) (lookup_params session callsign)) as [body|] eqn:Hn.
  2: { unfold lookup_call, bind, requests_get. now rewrite Hn. }
  destruct (fromstring body) as [root|] eqn:Hp.
  2: { unfold lookup_call, bind, requests_get, ET_fromstring.
       now rewrite Hn, Hp. }
  rewrite (lookup_call_run _ _ _ _ _ Hn Hp).
  destruct (find "Error" root); [reflexivity |].
  unfold record_of, bind.
  rewrite get_run. destruct (field_value root "call"); auto.
  rewrite get_run. destruct (field_value root "fname"); auto.
  rewrite get_run. destruct (field_value root "name"); auto.
  rewrite get_run. destruct (field_value root "addr2"); auto.
  rewrite get_run. destruct (field_value root "state"); auto.
  rewrite get_run. destruct (field_value root "country"); auto.
Qed.

Lemma record_of_Some (root : Element) (now : float) (r : Lookup) :
  record_of root now = Some r ->
  field_value root "call" = Some (call r) /\
  field_value root "fname" = Some (fname r) /\
  field_value root "name" = Some (name r) /\
  field_value root "addr2" = Some (addr r) /\
  field_value root "state" = Some (state r) /\
  field_value root "country" = Some (country r) /\
  timestamp r = strftime now.
Proof.
  unfold record_of.
  destruct (field_value root "call"); [| discriminate].
  destruct (field_value root "fname"); [| discriminate].
  destruct (field_value root "name"); [| discriminate].
  destruct (field_value root "addr2"); [| discriminate].
  destruct (field_value root "state"); [| discriminate].
  destruct (field_value root "country"); [| discriminate].
  intros H. injection H as <-. simpl. repeat split.
Qed.

Lemma record_of_None (root : Element) (now : float) :
  record_of root now = None ->
  exists t, In t FIELDS /\ field_value root t = None.
Proof.
  unfold record_of, FIELDS.
  destruct (field_value root "call") eqn:E1;
    [| exists "call"; simpl; auto 10].
  destruct (field_value root "fname") eqn:E2;
    [| exists "fname"; simpl; auto 10].
  destruct (field_value root "name") eqn:E3;
    [| exists "name"; simpl; auto 10].
  destruct (field_value root "addr2") eqn:E4;
    [| exists "addr2"; simpl; auto 10].
  destruct (field_value root "state") eqn:E5;
    [| exists "state"; simpl; auto 10].
  destruct (field_value root "country") eqn:E6;
    [| exists "country"; simpl; auto 10].
  discriminate.
Qed.

Lemma field_value_None (root : Element) (t : string) :
  field_value root t = None <->
  exists e, find t root = Some e /\ text e = None.
Proof.
  unfold field_value. destruct (find t root) as [e|].
  - destruct (text e) eqn:E; split; try discriminate; eauto.
    intros (e' & H & H'). injection H as <-. congruence.
  - split; [discriminate | intros (e' & H & _); discriminate].
Qed.

Lemma field_value_stripped (root : Element) (t v : string) :
  field_value root t = Some v -> strip v = v.
Proof.
  unfold field_value. destruct (find t root) as [e|].
  - destruct (text e); [| discriminate].
    intros H. injection H as <-. apply strip_idempotent.
  - intros H. now injection H as <-.
Qed.

(** X6. Whatever its outcome, [lookup_call] sends exactly one request, the
    lookup itself, prints at most its one message after it, reads nothing
    from the user and leaves the session file alone. *)
Theorem lookup_call_one_request (session callsign : string) (w w' : World)
    (o : outcome Lookup) :
  lookup_call session callsign w = (o, w') ->
  sent w' = S (sent w) /\
  session_file w' = session_file w /\
  stdin w' = stdin w /\ tty w' = tty w /\
  (trace w' = trace w ++ [HttpGet (lookup_params session callsign)] \/
   trace w' =
     trace w ++
     [HttpGet (lookup_params session callsign); Stdout OutExpiredMidQuery]).
Proof.
  rewrite lookup_call_cases. cbv zeta.
  destruct (net w (sent w) (lookup_params session callsign)) as [body|].
  2: { intros H. injection H as <- <-. repeat split. now left. }
  destruct (fromstring body) as [root|].
  2: { intros H. injection H as <- <-. repeat split. now left. }
  destruct (find "Error" root).
  { intros H. injection H as <- <-. repeat split. right. simpl.
    now rewrite <- app_assoc. }
  destruct (record_of root (clock w)); intros H; injection H as <- <-;
    repeat split; now left.
Qed.

(** X7. No field of a record that [lookup_call] returns has white space at
    its ends: stripping any of the six fields again changes nothing. *)
Theorem lookup_call_fields_stripped (session callsign : string) (w w' : World)
    (r : Lookup) :
  lookup_call session callsign w = (Ret r, w') ->
  strip (call r) = call r /\ strip (fname r) = fname r /\
  strip (name r) = name r /\ strip (addr r) = addr r /\
  strip (state r) = state r /\ strip (country r) = country r.
Proof.
  rewrite lookup_call_cases. cbv zeta.
  destruct (net w (sent w) (lookup_params session callsign)) as [body|];
    [| discriminate].
  destruct (fromstring body) as [root|]; [| discriminate].
  destruct (find "Error" root); [discriminate |].
  destruct (record_of root (clock w)) as [r'|] eqn:E; [| discriminate].
  intros H. injection H as <- _.
  apply record_of_Some in E as (H1 & H2 & H3 & H4 & H5 & H6 & _).
  repeat split; eapply field_value_stripped; eassumption.
Qed.

(** X8. [lookup_call] ends in exactly one of five ways, each with its
    cause: [RequestException] when the request fails, [ParseError] when the
    response is not well-formed, exit code 1 when an [Error] element lies
    below the root, [AttributeError] when there is none but one of the six
    fields is present without text, and a record otherwise.  It never
    exits with another code or raises anything else. *)
Theorem lookup_call_outcomes (session callsign : string) (w w' : World)
    (o : outcome Lookup) :
  lookup_call session callsign w = (o, w') ->
  (o = Raise RequestException /\
   net w (sent w) (lookup_params session callsign) = None) \/
  (o = Raise ParseError /\
   exists body,
     net w (sent w) (lookup_params session callsign) = Some body /\
     fromstring body = None) \/
  (o = Exit 1 /\
   exists body root e,
     net w (sent w) (lookup_params session callsign) = Some body /\
     fromstring body = Some root /\
     In e (descendants root) /\ tag e = "Error") \/
  (o = Raise AttributeError /\
   exists body root t e,
     net w (sent w) (lookup_params session callsign) = Some body /\
     fromstring body = Some root /\
     (forall x, In x (descendants root) -> tag x <> "Error") /\
     In t FIELDS /\ find t root = Some e /\ text e = None) \/
  (exists r,
     o = Ret r /\
     exists body root,
       net w (sent w) (lookup_params session callsign) = Some body /\
       fromstring body = Some root /\
       (forall x, In x (descendants root) -> tag x <> "Error") /\
       (forall t e, In t FIELDS -> find t root = Some e -> text e <> None)).
Proof.
  rewrite lookup_call_cases. cbv zeta.
  destruct (net w (sent w) (lookup_params session callsign)) as [body|].
  2: { intros H. injection H as <- _. now left. }
  destruct (fromstring body) as [root|] eqn:Hp.
  2: { intros H. injection H as <- _. right. left. eauto. }
  destruct (find "Error" root) as [e|] eqn:He.
  { intros H. injection H as <- _. right. right. left.
    apply find_Some in He as [He Ht]. split; auto. exists body, root, e. auto. }
  pose proof (proj1 (find_None _ _) He) as Hfree. clear He.
  destruct (record_of root (clock w)) as [r|] eqn:Er;
    intros H; injection H as <- _; right; right; right.
  - right. exists r. split; auto. exists body, root. repeat split; auto.
    intros t e Ht Hf Hx.
    assert (Hv : field_value root t = None) by (apply field_value_None; eauto).
    apply record_of_Some in Er as (H1 & H2 & H3 & H4 & H5 & H6 & _).
    simpl in Ht.
    destruct Ht as [<- | [<- | [<- | [<- | [<- | [<- | []]]]]]]; congruence.
  - left. split; auto.
    apply record_of_None in Er as (t & Ht & Hv).
    apply field_value_None in Hv as (e & Hf & Hx).
    exists body, root, t, e. repeat split; auto.
Qed.

(** X9. The probe and the lookup read an [Error] element at the root
    differently.  For a response that is a single [Error] element with the
    marker in its text, [session_valid] answers false, while [lookup_call]
    does not see the error: it returns a record whose six fields are
    empty. *)
Theorem root_error_probe_and_lookup (session callsign body t : string)
    (w : World) :
  fromstring body = Some (Elem "Error" (Some t) []) ->
  occurs_in INVALID_SESSION t ->
  (net w (sent w) (probe_params session) = Some body ->
   session_valid session w =
     (Ret false, requested (probe_params session) w)) /\
  (net w (sent w) (lookup_params session callsign) = Some body ->
   lookup_call session callsign w =
     (Ret (mkLookup "" "" "" "" "" "" (strftime (clock w))),
      requested (lookup_params session callsign) w)).
Proof.
  intros Hp Ht. split; intros Hn.
  - rewrite session_valid_run. unfold probe_accepts. rewrite Hn, Hp.
    apply contains_iff in Ht. simpl. unfold rejecting. simpl.
    now rewrite Ht.
  - rewrite lookup_call_cases. cbv zeta. now rewrite Hn, Hp.
Qed.

(** ** The exports *)

Lemma string_app_assoc (a b c : string) :
  ((a ++ b) ++ c)%string = (a ++ (b ++ c))%string.
Proof. induction a as [|x a IH]; simpl; [reflexivity | now rewrite IH]. Qed.

Lemma string_app_nil_r (a : string) : (a ++ "")%string = a.
Proof. induction a as [|x a IH]; simpl; [reflexivity | now rewrite IH]. Qed.

Lemma put_same (filename data : string) (d : string -> option string) :
  put filename data d filename = Some data.
Proof. unfold put. now rewrite String.eqb_refl. Qed.

Lemma put_other (filename data f : string) (d : string -> option string) :
  f <> filename -> put filename data d f = d f.
Proof. unfold put. intros H. apply String.eqb_neq in H. now rewrite H. Qed.

(** One export to a CSV file: the header goes in front of the row only
    when the file did not exist. *)
Lemma export_csv_run (r : Lookup) (filename : string) (s : Sys) :
  exists s',
    export_csv r filename s = (Ret tt, s') /\
    core s' = core s /\
    console s' = console s ++ [CsvUpdated filename] /\
    disk s' filename =
      Some ((match disk s filename with
             | None => csv_row CSV_FIELDNAMES
             | Some old => old
             end) ++ csv_row (record_values r))%string /\
    forall f, f <> filename -> disk s' f = disk s f.
Proof.
  unfold export_csv, pbind, file_exists, append_text, say, pret.
  destruct (disk s filename) as [old|] eqn:E; simpl.
  - rewrite E. eexists. split; [reflexivity |]. simpl.
    repeat split; [apply put_same | intros f Hf; now apply put_other].
  - rewrite E. simpl. eexists. split; [reflexivity |]. simpl.
    rewrite !put_same. repeat split.
    intros f Hf. now rewrite !put_other.
Qed.

(** X10. Exporting records one after the other to the same CSV file keeps
    what the file held, writes the header exactly once and only when the
    file did not exist, and appends one row per record in order; a file
    that exists but is empty therefore gets rows without a header.  No
    other file changes and the world is not touched. *)
Theorem export_csv_all_appends (rs : list Lookup) (r : Lookup)
    (filename : string) (s : Sys) :
  exists s',
    export_csv_all (r :: rs) filename s = (Ret tt, s') /\
    core s' = core s /\
    disk s' filename =
      Some ((match disk s filename with
             | None => csv_row CSV_FIELDNAMES
             | Some old => old
             end) ++
            join (map (fun x => csv_row (record_values x)) (r :: rs)))%string /\
    forall f, f <> filename -> disk s' f = disk s f.
Proof.
  revert r s. induction rs as [|r2 rs IH]; intros r s.
  - destruct (export_csv_run r filename s) as (s1 & H1 & Hc & _ & Hd & Ho).
    exists s1. simpl. unfold pbind. rewrite H1. unfold pret.
    repeat split; auto.
    rewrite Hd. unfold join. simpl. now rewrite string_app_nil_r.
  - destruct (export_csv_run r filename s) as (s1 & H1 & Hc & _ & Hd & Ho).
    destruct (IH r2 s1) as (s' & H2 & Hc2 & Hd2 & Ho2).
    exists s'. split.
    { change (export_csv_all (r :: r2 :: rs) filename s) with
        (pbind (export_csv r filename)
               (fun _ => export_csv_all (r2 :: rs) filename) s).
      unfold pbind at 1. now rewrite H1. }
    split; [congruence |]. split.
    + rewrite Hd2, Hd. f_equal.
      change (join (map (fun x => csv_row (record_values x)) (r :: r2 :: rs)))
        with (csv_row (record_values r) ++
              join (map (fun x => csv_row (record_values x)) (r2 :: rs)))%string.
      now rewrite string_app_assoc.
    + intros f Hf. rewrite Ho2, Ho; auto.
Qed.

(** What [load_data] gives back; it changes nothing. *)
Lemma load_data_run (filename : string) (s : Sys) :
  load_data filename s =
  (Ret match disk s filename with
       | None => JArray []
       | Some data =>
           match json_load data with
           | Some v => v
           | None => JArray []
           end
       end, s).
Proof.
  unfold load_data, pbind, file_exists, read_text, pret.
  destruct (disk s filename) as [data|] eqn:E; simpl; auto.
  rewrite E. now destruct (json_load data).
Qed.

(** One export to a JSON file that holds the array [items], or that starts
    from the empty array. *)
Lemma export_json_array (r : Lookup) (filename : string) (s : Sys)
    (items : list JSON) :
  load_data filename s = (Ret (JArray items), s) ->
  export_json r filename s =
  (Ret tt,
   mkSys (core s)
     (put filename (json_dump (JArray (items ++ [record_json r]))) (disk s))
     (console s ++ [JsonUpdated filename])).
Proof.
  intros H. unfold export_json, pbind. now rewrite H.
Qed.

Lemma export_json_starts_afresh_aux (r : Lookup) (filename : string)
    (s : Sys) :
  disk s filename = None ->
  exists s',
    export_json r filename s = (Ret tt, s') /\
    disk s' filename = Some (json_dump (JArray [record_json r])) /\
    (forall f, f <> filename -> disk s' f = disk s f) /\
    core s' = core s /\
    console s' = console s ++ [JsonUpdated filename].
Proof.
  intros H.
  assert (Hl : load_data filename s = (Ret (JArray []), s)).
  { rewrite load_data_run. now rewrite H. }
  rewrite (export_json_array r filename s [] Hl).
  eexists. split; [reflexivity |]. simpl. repeat split.
  - apply put_same.
  - intros f Hf. now apply put_other.
Qed.

Lemma export_json_raises (r : Lookup) (filename data : string)
    (s : Sys) (v : JSON) :
  disk s filename = Some data ->
  json_load data = Some v ->
  (forall items, v <> JArray items) ->
  export_json r filename s = (Raise AttributeError, s).
Proof.
  intros Hd Hl Hv. unfold export_json, pbind.
  rewrite load_data_run, Hd, Hl.
  destruct v; try reflexivity. now destruct (Hv items).
Qed.

(** X11. When the JSON file holds well-formed JSON that is not an array (an
    object, a string, a number, true, false or null), [export_json] raises
    [AttributeError] before it opens the file for writing: the file and
    everything else are left exactly as they were, and nothing is
    printed. *)
Theorem export_json_not_an_array (r : Lookup) (filename data : string)
    (s : Sys) (v : JSON) :
  disk s filename = Some data ->
  json_load data = Some v ->
  (forall items, v <> JArray items) ->
  export_json r filename s = (Raise AttributeError, s).
Proof. apply export_json_raises. Qed.

(** X12. When the JSON file does not exist, or holds text that is not
    well-formed JSON, [export_json] starts from the empty list: the file
    ends up holding the one-element array of the record, and what it held
    before is gone. *)
Theorem export_json_starts_afresh (r : Lookup) (filename : string) (s : Sys) :
  disk s filename = None \/
  (exists data, disk s filename = Some data /\ json_load data = None) ->
  exists s',
    export_json r filename s = (Ret tt, s') /\
    disk s' filename = Some (json_dump (JArray [record_json r])) /\
    (forall f, f <> filename -> disk s' f = disk s f) /\
    core s' = core s /\
    console s' = console s ++ [JsonUpdated filename].
Proof.
  intros H.
  assert (Hl : load_data filename s = (Ret (JArray []), s)).
  { rewrite load_data_run.
    destruct H as [-> | (data & -> & ->)]; reflexivity. }
  rewrite (export_json_array r filename s [] Hl).
  eexists. split; [reflexivity |]. simpl. repeat split.
  - apply put_same.
  - intros f Hf. now apply put_other.
Qed.

(** X13. Records accumulate in order: when the file holds an array and the
    text written by the first export reads back as the array it was made
    from, two exports in a row leave the array extended by the two
    records, first one first. *)
Theorem export_json_twice (r1 r2 : Lookup) (filename data : string) (s : Sys)
    (items : list JSON) :
  disk s filename = Some data ->
  json_load data = Some (JArray items) ->
  json_load (json_dump (JArray (items ++ [record_json r1]))) =
    Some (JArray (items ++ [record_json r1])) ->
  exists s',
    pbind (export_json r1 filename) (fun _ => export_json r2 filename) s =
      (Ret tt, s') /\
    disk s' filename =
      Some (json_dump (JArray (items ++ [record_json r1; record_json r2]))) /\
    (forall f, f <> filename -> disk s' f = disk s f) /\
    console s' = console s ++ [JsonUpdated filename; JsonUpdated filename].
Proof.
  intros Hd Hl Hrt.
  assert (H1 : load_data filename s = (Ret (JArray items), s)).
  { now rewrite load_data_run, Hd, Hl. }
  unfold pbind at 1. rewrite (export_json_array r1 filename s items H1).
  match goal with |- context [export_json r2 filename ?s1] =>
    assert (H2 : load_data filename s1 =
                 (Ret (JArray (items ++ [record_json r1])), s1))
  end.
  { rewrite load_data_run. simpl. now rewrite put_same, Hrt. }
  rewrite (export_json_array r2 filename _ _ H2).
  eexists. split; [reflexivity |]. simpl. repeat split.
  - rewrite put_same. now rewrite <- app_assoc.
  - intros f Hf. now rewrite !put_other.
  - now rewrite <- app_assoc.
Qed.

(** ** The main program *)

(** [main], one case after the other. *)
Lemma main_cases (args : Args) (s : Sys) :
  main args s =
  match get_session (core s) with
  | (Ret session, w1) =>
      match lookup_call session (upper (arg_callsign args)) w1 with
      | (Ret r, w2) =>
          exports args r (mkSys w2 (disk s) (console s ++ result_lines r))
      | (Exit c, w2) => (Exit c, mkSys w2 (disk s) (console s))
      | (Raise e, w2) => (Raise e, mkSys w2 (disk s) (console s))
      end
  | (Exit c, w1) => (Exit c, mkSys w1 (disk s) (console s))
  | (Raise e, w1) => (Raise e, mkSys w1 (disk s) (console s))
  end.
Proof.
  unfold main. cbv zeta. unfold pbind at 1, lift at 1.
  destruct (get_session (core s)) as [[session | c | e] w1]; auto.
  unfold pbind at 1, lift at 1. simpl.
  destruct (lookup_call session (upper (arg_callsign args)) w1)
    as [[r | c | e] w2]; auto.
  unfold pbind, say, exports, result_lines. simpl.
  repeat rewrite <- app_assoc. reflexivity.
Qed.

Lemma export_files_differ : JSON_FILE <> CSV_FILE.
Proof. discriminate. Qed.

(** The two outcomes of [export_json]. *)
Lemma export_json_run (r : Lookup) (filename : string) (s s' : Sys)
    (o : outcome unit) :
  export_json r filename s = (o, s') ->
  (o = Raise AttributeError /\ s' = s) \/
  (o = Ret tt /\ core s' = core s /\
   console s' = console s ++ [JsonUpdated filename] /\
   forall f, f <> filename -> disk s' f = disk s f).
Proof.
  unfold export_json, pbind. rewrite load_data_run.
  destruct (match disk s filename with
            | Some data =>
                match json_load data with
                | Some v => v
                | None => JArray []
                end
            | None => JArray []
            end); simpl;
    try (intros H; injection H as <- <-; now left).
  intros H. injection H as <- <-. right. simpl. repeat split.
  intros f Hf. now apply put_other.
Qed.

(** What the exports at the end of [main] can change. *)
Lemma exports_run (args : Args) (r : Lookup) (s s' : Sys) (o : outcome unit) :
  exports args r s = (o, s') ->
  core s' = core s /\
  (exists more, console s' = console s ++ more) /\
  (forall f, f <> CSV_FILE -> f <> JSON_FILE -> disk s' f = disk s f) /\
  (arg_csv args || arg_both args = false ->
   disk s' CSV_FILE = disk s CSV_FILE) /\
  (arg_json args || arg_both args = false ->
   disk s' JSON_FILE = disk s JSON_FILE).
Proof.
  unfold exports, pbind.
  assert (Hj : forall s1, core s1 = core s ->
            (exists more, console s1 = console s ++ more) ->
            (forall f, f <> CSV_FILE -> disk s1 f = disk s f) ->
            (arg_csv args || arg_both args = false ->
             disk s1 CSV_FILE = disk s CSV_FILE) ->
            (if arg_json args || arg_both args
             then export_json r JSON_FILE else pret tt) s1 = (o, s') ->
            core s' = core s /\
            (exists more, console s' = console s ++ more) /\
            (forall f, f <> CSV_FILE -> f <> JSON_FILE ->
                       disk s' f = disk s f) /\
            (arg_csv args || arg_both args = false ->
             disk s' CSV_FILE = disk s CSV_FILE) /\
            (arg_json args || arg_both args = false ->
             disk s' JSON_FILE = disk s JSON_FILE)).
  { intros s1 Hc (more & Hm) Hd Hcsv.
    destruct (arg_json args || arg_both args).
    - intros H. apply export_json_run in H
        as [(-> & ->) | (-> & Hc' & Hm' & Hd')].
      + repeat split; eauto. discriminate.
      + repeat split.
        * congruence.
        * exists (more ++ [JsonUpdated JSON_FILE]).
          now rewrite Hm', Hm, app_assoc.
        * intros f H1 H2. rewrite Hd', Hd; auto.
        * intros H. rewrite Hd'; auto using not_eq_sym, export_files_differ.
        * discriminate.
    - intros H. injection H as <- <-. repeat split; eauto.
      intros _. apply Hd. apply export_files_differ. }
  destruct (arg_csv args || arg_both args).
  - destruct (export_csv_run r CSV_FILE s) as (s1 & -> & Hc & Hm & _ & Hd).
    intros H.
    assert (Hx : exists more, console s1 = console s ++ more) by eauto.
    assert (Hy : true = false -> disk s1 CSV_FILE = disk s CSV_FILE)
      by discriminate.
    destruct (Hj s1 Hc Hx Hd Hy H) as (H1 & H2 & H3 & _ & H5).
    repeat split; auto. discriminate.
  - unfold pret at 1. intros H.
    assert (Hx : exists more, console s = console s ++ more)
      by (exists []; now rewrite app_nil_r).
    exact (Hj s eq_refl Hx (fun _ _ => eq_refl) (fun _ => eq_refl) H).
Qed.

Lemma lookup_call_file (session callsign : string) (w w' : World)
    (o : outcome Lookup) :
  lookup_call session callsign w = (o, w') ->
  session_file w' = session_file w.
Proof.
  rewrite lookup_call_cases. cbv zeta.
  destruct (net w (sent w) (lookup_params session callsign)) as [body|].
  2: { intros H. now injection H as <- <-. }
  destruct (fromstring body) as [root|].
  2: { intros H. now injection H as <- <-. }
  destruct (find "Error" root).
  { intros H. now injection H as <- <-. }
  destruct (record_of root (clock w)); intros H; now injection H as <- <-.
Qed.

(** X14. The files a run of [main] can change, whatever its outcome.  The
    session file is after the run as the call of [get_session] at the
    start of the run left it: neither the lookup nor the exports touch it.
    Of the other files, none but the two export files is written, the CSV
    file only with [--csv] or [--both] and the JSON file only with
    [--json] or [--both]. *)
Theorem main_writes_only_selected_files (args : Args) (s s' : Sys)
    (o : outcome unit) :
  main args s = (o, s') ->
  (exists o1 w1,
     get_session (core s) = (o1, w1) /\
     session_file (core s') = session_file w1) /\
  (forall f, f <> CSV_FILE -> f <> JSON_FILE -> disk s' f = disk s f) /\
  (arg_csv args || arg_both args = false ->
   disk s' CSV_FILE = disk s CSV_FILE) /\
  (arg_json args || arg_both args = false ->
   disk s' JSON_FILE = disk s JSON_FILE).
Proof.
  rewrite main_cases.
  destruct (get_session (core s)) as [[session | c | e] w1].
  2, 3: intros H; injection H as <- <-; repeat split; eauto.
  destruct (lookup_call session (upper (arg_callsign args)) w1)
    as [[r | c | e] w2] eqn:El; apply lookup_call_file in El.
  2, 3: intros H; injection H as <- <-; repeat split; eauto.
  intros H. apply exports_run in H as (Hc & _ & H3 & H4 & H5).
  simpl in Hc. split; [| auto].
  exists (Ret session), w1. split; auto. now rewrite Hc.
Qed.

(** X15. [main] prints a result and exports only after both [get_session]
    and [lookup_call] have returned, and the lookup is made with the
    session [get_session] returned and the upper-cased callsign.  In every
    other run it ends with the outcome of the call that did not return,
    having printed no result and changed no file. *)
Theorem main_exports_only_after_lookup (args : Args) (s s' : Sys)
    (o : outcome unit) :
  main args s = (o, s') ->
  (exists session w1 r,
     get_session (core s) = (Ret session, w1) /\
     lookup_call session (upper (arg_callsign args)) w1 = (Ret r, core s') /\
     exists more, console s' = console s ++ result_lines r ++ more) \/
  (o <> Ret tt /\ disk s' = disk s /\ console s' = console s).
Proof.
  rewrite main_cases.
  destruct (get_session (core s)) as [[session | c | e] w1].
  2, 3: intros H; injection H as <- <-; right; repeat split; discriminate.
  destruct (lookup_call session (upper (arg_callsign args)) w1)
    as [[r | c | e] w2] eqn:El.
  2, 3: intros H; injection H as <- <-; right; repeat split; discriminate.
  intros H. apply exports_run in H as (Hc & (more & Hm) & _).
  left. exists session, w1, r. simpl in Hc, Hm. rewrite Hc.
  repeat split; auto. exists more. now rewrite Hm, app_assoc.
Qed.

(** X16. The exports are not all or nothing.  With [--both], when the
    lookup has returned a record and the JSON file holds well-formed JSON
    that is not an array, [main] ends with [AttributeError] after the row
    was appended to the CSV file: the CSV file has the new row, the JSON
    file is what it was. *)
Theorem main_csv_written_before_json_fails (args : Args) (s : Sys)
    (session data : string) (w1 w2 : World) (r : Lookup) (v : JSON) :
  get_session (core s) = (Ret session, w1) ->
  lookup_call session (upper (arg_callsign args)) w1 = (Ret r, w2) ->
  arg_both args = true ->
  disk s JSON_FILE = Some data ->
  json_load data = Some v ->
  (forall items, v <> JArray items) ->
  exists s',
    main args s = (Raise AttributeError, s') /\
    disk s' CSV_FILE =
      Some ((match disk s CSV_FILE with
             | None => csv_row CSV_FIELDNAMES
             | Some old => old
             end) ++ csv_row (record_values r))%string /\
    disk s' JSON_FILE = Some data /\
    console s' = console s ++ result_lines r ++ [CsvUpdated CSV_FILE].
Proof.
  intros Hg Hl Hb Hd Hj Hv.
  rewrite main_cases, Hg, Hl. unfold exports.
  rewrite Hb, !orb_true_r. unfold pbind at 1.
  destruct (export_csv_run r CSV_FILE
              (mkSys w2 (disk s) (console s ++ result_lines r)))
    as (s1 & -> & Hc & Hm & Hcsv & Ho).
  simpl in Hm, Hcsv, Ho.
  assert (Hd1 : disk s1 JSON_FILE = Some data).
  { rewrite Ho; auto using export_files_differ. }
  rewrite (export_json_raises r JSON_FILE data s1 v Hd1 Hj Hv).
  exists s1. repeat split; auto. now rewrite Hm, <- app_assoc.
Qed.

(** X17. A complete run with [--both] on a directory without export files:
    when [get_session] and [lookup_call] return, [main] returns, the CSV
    file holds the header and the row of the record, the JSON file holds
    the one-element array of the same record, and the console shows the
    result followed by the two notices. *)
Theorem main_both_exports (args : Args) (s : Sys) (session : string)
    (w1 w2 : World) (r : Lookup) :
  get_session (core s) = (Ret session, w1) ->
  lookup_call session (upper (arg_callsign args)) w1 = (Ret r, w2) ->
  arg_both args = true ->
  disk s CSV_FILE = None ->
  disk s JSON_FILE = None ->
  exists s',
    main args s = (Ret tt, s') /\
    core s' = w2 /\
    disk s' CSV_FILE =
      Some (csv_row CSV_FIELDNAMES ++ csv_row (record_values r))%string /\
    disk s' JSON_FILE = Some (json_dump (JArray [record_json r])) /\
    console s' =
      console s ++ result_lines r ++
      [CsvUpdated CSV_FILE; JsonUpdated JSON_FILE].
Proof.
  intros Hg Hl Hb Hcsv Hjson.
  rewrite main_cases, Hg, Hl. unfold exports.
  rewrite Hb, !orb_true_r. unfold pbind at 1.
  destruct (export_csv_run r CSV_FILE
              (mkSys w2 (disk s) (console s ++ result_lines r)))
    as (s1 & -> & Hc & Hm & Hd & Ho).
  simpl in Hc, Hm, Hd, Ho. rewrite Hcsv in Hd.
  assert (Hj1 : disk s1 JSON_FILE = None).
  { rewrite Ho; auto using export_files_differ. }
  destruct (export_json_starts_afresh_aux r JSON_FILE s1 Hj1)
    as (s' & -> & Hd' & Ho' & Hc' & Hm').
  exists s'. repeat split; auto.
  - congruence.
  - rewrite Ho'; auto. discriminate.
  - rewrite Hm', Hm. now rewrite <- !app_assoc.
Qed.

(** ** Across calls and runs *)

Lemma new_session_token_stripped (w w' : World) (tok : string) :
  new_session w = (Ret tok, w') -> strip tok = tok.
Proof.
  rewrite new_session_cases.
  destruct (stdin w) as [|line rest_in]; [discriminate |].
  destruct (tty w) as [|pw rest_tty]; [discriminate |].
  cbv zeta.
  destruct (net w (sent w) (exchange_params (strip line) pw)) as [body|];
    [| discriminate].
  destruct (fromstring body) as [root|]; [| discriminate].
  destruct (find "Key" root) as [k|]; [| discriminate].
  destruct (text k) as [t|]; [| discriminate].
  intros H. injection H as <- _. apply strip_idempotent.
Qed.

(** X19. From one run to the next: a token that [new_session] returned,
    if it is not empty and holds no carriage return, is the token
    [get_session] returns in any later world that still has the file, is
    within the window counted from the moment of the exchange, and in
    which the probe accepts it; the user is not asked again. *)
Theorem get_session_reuses_new_session (w w' later w2 : World)
    (tok : string) :
  new_session w = (Ret tok, w') ->
  tok <> "" ->
  has_cr tok = false ->
  session_file later = session_file w' ->
  too_old (clock later) (clock w) = false ->
  session_valid tok later = (Ret true, w2) ->
  get_session later = (Ret tok, log (Stdout OutUsingCached) w2) /\
  stdin (log (Stdout OutUsingCached) w2) = stdin later /\
  tty (log (Stdout OutUsingCached) w2) = tty later.
Proof.
  intros Hn Hne Hcr Hfile Hage Hv.
  pose proof (new_session_token_stripped _ _ _ Hn) as Hs.
  apply new_session_file in Hn as [(tok' & E & Hf) | (Hx & _)].
  2: { now destruct (Hx tok). }
  injection E as <-.
  assert (Hc : cached_token later = Some tok).
  { apply cached_token_Some. exists (mkFile (clock w) tok).
    rewrite Hfile. simpl. repeat split; auto.
    unfold content. simpl. now rewrite (universal_newlines_no_cr _ Hcr). }
  rewrite session_valid_run in Hv. injection Hv as Hp <-.
  rewrite get_session_run, Hc.
  destruct tok as [|c tok']; [congruence |]. simpl nonempty. cbv iota.
  rewrite Hp. repeat split.
Qed.

(** X20. A [Key] element whose text is white space only is taken as a
    session: [new_session] saves the empty string and returns it.  The
    next run does not use that file: even within the window
    [get_session] asks for a new session, without a probe. *)
Theorem new_session_blank_key (w : World) (line pw body t : string)
    (rest_in rest_tty : list string) (root key_elem : Element) :
  stdin w = line :: rest_in ->
  tty w = pw :: rest_tty ->
  net w (sent w) (exchange_params (strip line) pw) = Some body ->
  fromstring body = Some root ->
  find "Key" root = Some key_elem ->
  text key_elem = Some t ->
  all_space t = true ->
  exists w',
    new_session w = (Ret "", w') /\
    session_file w' = Some (mkFile (clock w) "") /\
    forall later,
      session_file later = session_file w' ->
      get_session later =
        new_session (log (Stdout OutExpiredOrMissing) later).
Proof.
  intros Hin Htty Hnet Hparse Hkey Htext Hblank.
  rewrite (new_session_run w line pw body rest_in rest_tty root
             Hin Htty Hnet Hparse).
  rewrite Hkey, Htext. apply strip_empty_iff in Hblank. rewrite Hblank.
  eexists. split; [reflexivity |]. split; [reflexivity |].
  intros later Hfile. rewrite get_session_run. unfold cached_token.
  rewrite Hfile. simpl.
  now destruct (too_old (clock later) (clock w)).
Qed.

Lemma lookup_call_sent (session callsign : string) (w w' : World)
    (o : outcome Lookup) :
  lookup_call session callsign w = (o, w') -> sent w' = S (sent w).
Proof.
  rewrite lookup_call_cases. cbv zeta.
  destruct (net w (sent w) (lookup_params session callsign)) as [body|].
  2: { intros H. now injection H as <- <-. }
  destruct (fromstring body) as [root|].
  2: { intros H. now injection H as <- <-. }
  destruct (find "Error" root).
  { intros H. now injection H as <- <-. }
  destruct (record_of root (clock w)); intros H; now injection H as <- <-.
Qed.

(** X21. A whole run of [main] sends at most three requests: the probe, the
    exchange and the lookup.  Nothing is ever retried. *)
Theorem main_at_most_three_requests (args : Args) (s s' : Sys)
    (o : outcome unit) :
  main args s = (o, s') -> (sent (core s') <= sent (core s) + 3)%nat.
Proof.
  rewrite main_cases.
  destruct (get_session (core s)) as [[session | c | e] w1] eqn:Eg;
    apply get_session_sent in Eg.
  2, 3: intros H; injection H as <- <-; simpl; lia.
  destruct (lookup_call session (upper (arg_callsign args)) w1)
    as [[r | c | e] w2] eqn:El; apply lookup_call_sent in El.
  2, 3: intros H; injection H as <- <-; simpl; lia.
  intros H. apply exports_run in H as (Hc & _). rewrite Hc. simpl. lia.
Qed.

End Program.

(** ** The theorems at work on the sample worlds *)

(** Settles a statement about every element of a concrete list of
    elements by going through the list. *)
Ltac each_element :=
  let e := fresh "e" in
  let H := fresh "H" in
  intros e H; cbv in H;
  repeat (destruct H as [<- | H]; [cbv; discriminate |]);
  destruct H.

(** The probe was told that the key is invalid: the token handed out is the
    one the exchange returned, not the cached one. *)
Lemma get_session_never_stale_witness :
  let w' := snd (get_session sample_fromstring w_rejected) in
  (reused sample_fromstring w_rejected "abc123" w' \/
   minted sample_fromstring w_rejected "abc123" w') /\
  (expired w_rejected -> minted sample_fromstring w_rejected "abc123" w') /\
  (probe_rejected sample_fromstring w_rejected ->
   minted sample_fromstring w_rejected "abc123" w').
Proof.
  apply (get_session_never_stale sample_fromstring w_rejected
           (snd (get_session sample_fromstring w_rejected)) "abc123").
  vm_compute. reflexivity.
Defined.

(** A ten minutes old file with an accepted token: no prompt. *)
Lemma get_session_reuses_cached_witness :
  exists w',
    get_session sample_fromstring w_fresh = (Ret "abc123", w') /\
    trace w' =
      trace w_fresh ++ [HttpGet (probe_params "abc123"); Stdout OutUsingCached] /\
    stdin w' = stdin w_fresh /\ tty w' = tty w_fresh /\
    session_file w' = session_file w_fresh.
Proof.
  apply (get_session_reuses_cached sample_fromstring w_fresh
           (requested (probe_params "abc123") w_fresh)
           (mkFile 1000 ("abc123" ++ newline)) "abc123").
  - reflexivity.
  - reflexivity.
  - reflexivity.
  - discriminate.
  - vm_compute. reflexivity.
Defined.

(** A file of white space only: the run starts with the notice and the
    prompt. *)
Lemma get_session_blank_cache_witness :
  load_session w_blank = (Ret (Some ""), w_blank) /\
  get_session sample_fromstring w_blank =
    new_session sample_fromstring (log (Stdout OutExpiredOrMissing) w_blank) /\
  forall o w',
    get_session sample_fromstring w_blank = (o, w') ->
    exists evs,
      trace w' =
        trace w_blank ++
        Stdout OutExpiredOrMissing :: Stdout OutUsernamePrompt :: evs /\
      forall s, ~ In (HttpGet (probe_params s)) evs.
Proof.
  apply (get_session_blank_cache sample_fromstring w_blank
           (mkFile 1000 ("  " ++ newline))).
  - reflexivity.
  - reflexivity.
  - reflexivity.
Defined.

(** A successful exchange, read back half an hour later. *)
Lemma new_session_round_trip_witness :
  exists w',
    new_session sample_fromstring (w_answer body_key) = (Ret "abc123", w') /\
    session_file w' = Some (mkFile 1600 "abc123") /\
    trace w' =
      [Stdout OutUsernamePrompt; ReadStdin " w1aw "; Getpass "secret";
       HttpGet (exchange_params "w1aw" "secret");
       FileWrite "abc123"; Stdout (OutGotKey "abc123")] /\
    forall later,
      session_file later = session_file w' ->
      too_old (clock later) 1600 = false ->
      load_session later = (Ret (Some "abc123"), later).
Proof.
  apply (new_session_round_trip sample_fromstring (w_answer body_key)
           " w1aw " "secret" body_key " abc123 " [] [] doc_key
           (Elem "Key" (Some " abc123 ") []));
    reflexivity.
Defined.

(** The service refuses the login: the body is printed, nothing is saved. *)
Lemma new_session_without_key_witness :
  exists w',
    new_session sample_fromstring (w_answer body_login_failed) = (Exit 1, w') /\
    trace w' =
      [Stdout OutUsernamePrompt; ReadStdin " w1aw "; Getpass "secret";
       HttpGet (exchange_params "w1aw" "secret");
       Stdout OutFailedKey; Stdout (OutBody body_login_failed)] /\
    session_file w' = None.
Proof.
  apply (new_session_without_key sample_fromstring
           (w_answer body_login_failed) " w1aw " "secret" body_login_failed
           [] [] doc_login_failed); try reflexivity.
  each_element.
Defined.

(** An [Error] element in the lookup response ends the run. *)
Lemma lookup_call_error_exits_witness :
  exists w',
    lookup_call sample_fromstring sample_strftime "abc123" "W1AW"
      (w_answer body_login_failed) = (Exit 1, w') /\
    trace w' =
      [HttpGet (lookup_params "abc123" "W1AW"); Stdout OutExpiredMidQuery] /\
    sent w' = 1%nat /\
    stdin w' = [" w1aw "] /\ tty w' = ["secret"] /\
    session_file w' = None /\
    forall (B : Type) (k : Lookup -> M B),
      bind (lookup_call sample_fromstring sample_strftime "abc123" "W1AW") k
        (w_answer body_login_failed) = (Exit 1, w').
Proof.
  apply (lookup_call_error_exits sample_fromstring sample_strftime
           "abc123" "W1AW" body_login_failed (w_answer body_login_failed)
           doc_login_failed (Elem "Error" (Some "Username/password incorrect") []));
    try reflexivity.
  cbv. auto.
Defined.

(** A response without [Error] element in which [fname] is present and
    empty: the lookup raises. *)
Lemma lookup_call_textless_field_witness :
  let w := w_answer body_textless_field in
  get doc_textless_field "fname" w = (Raise AttributeError, w) /\
  lookup_call sample_fromstring sample_strftime "abc123" "W1AW" w =
    (Raise AttributeError, requested (lookup_params "abc123" "W1AW") w) /\
  forall t',
    (forall x, In x (descendants doc_textless_field) -> tag x <> t') ->
    get doc_textless_field t' w = (Ret "", w).
Proof.
  apply (lookup_call_textless_field sample_fromstring sample_strftime
           "abc123" "W1AW" body_textless_field "fname"
           (w_answer body_textless_field) doc_textless_field
           (Elem "fname" None [])); try reflexivity.
  - each_element.
  - cbv. auto.
Defined.

(** C4 as stated fails here: the request succeeds, the response parses and
    no element of it carries a text with the marker, and still
    [session_valid] returns false, because the response has an [Error]
    element without text. *)
Lemma session_valid_textless_error :
  let w := w_answer body_textless_error in
  net w (sent w) (probe_params "abc123") = Some body_textless_error /\
  sample_fromstring body_textless_error = Some doc_textless_error /\
  (forall e t, In e (iter_all doc_textless_error) ->
               text e = Some t -> contains INVALID_SESSION t = false) /\
  session_valid sample_fromstring "abc123" w =
    (Ret false, requested (probe_params "abc123") w).
Proof.
  repeat split.
  intros e t H. cbv in H.
  destruct H as [<- | [<- | [<- | []]]]; discriminate.
Qed.

(** C6 at a response without [Error] element in which [call] is missing and
    [fname] is present without text: [get] gives the empty string for
    [call], but the lookup raises [AttributeError] and returns no record. *)
Theorem lookup_call_missing_and_textless :
  let w := w_answer body_textless_field in
  net w (sent w) (lookup_params "abc123" "W1AW") = Some body_textless_field /\
  sample_fromstring body_textless_field = Some doc_textless_field /\
  find "Error" doc_textless_field = None /\
  find "call" doc_textless_field = None /\
  get doc_textless_field "call" w = (Ret "", w) /\
  lookup_call sample_fromstring sample_strftime "abc123" "W1AW" w =
    (Raise AttributeError, requested (lookup_params "abc123" "W1AW") w).
Proof. repeat split. Qed.

(** The same lookup on a response whose present fields all carry text:
    the missing ones come out empty. *)
Example lookup_call_record :
  fst (lookup_call sample_fromstring sample_strftime "abc123" "W1AW"
         (w_answer body_record)) =
  Ret (mkLookup "W1AW" "" "ARRL HQ" "" "" "United States"
                "2024-05-01 12:00:00").
Proof. reflexivity. Qed.

(** An [Error] text without the marker does not make the probe fail. *)
Example session_valid_unrelated_error :
  fst (session_valid sample_fromstring "abc123" (w_answer body_login_failed)) =
  Ret true.
Proof. reflexivity. Qed.

(** Half an hour after it was written the token is read back; an hour and
    one second after, it is not. *)
Example load_session_window :
  fst (load_session (sample_world (Some (mkFile 1000 "abc123")) 2800 [])) =
    Ret (Some "abc123") /\
  fst (load_session (sample_world (Some (mkFile 1000 "abc123")) 4600 [])) =
    Ret (Some "abc123") /\
  fst (load_session (sample_world (Some (mkFile 1000 "abc123")) 4601 [])) =
    Ret None.
Proof. repeat split. Qed.

(** A file 150 minutes old is not read: the run goes straight to the
    prompt, without a probe. *)
Example get_session_expired :
  fst (get_session sample_fromstring w_expired) = Ret "abc123" /\
  trace (snd (get_session sample_fromstring w_expired)) =
    [Stdout OutExpiredOrMissing; Stdout OutUsernamePrompt;
     ReadStdin " w1aw "; Getpass "secret";
     HttpGet (exchange_params "w1aw" "secret");
     FileWrite "abc123"; Stdout (OutGotKey "abc123")].
Proof. split; reflexivity. Qed.

(** [iter] starts at the root, [find] below it. *)
Example iter_and_find_at_the_root :
  iter "Error" doc_root_error = [doc_root_error] /\
  find "Error" doc_root_error = None /\
  find "Error" doc_login_failed =
    Some (Elem "Error" (Some "Username/password incorrect") []).
Proof. repeat split. Qed.

(** ** The further properties on the sample worlds *)

Ltac run := vm_compute; reflexivity.

Lemma new_session_saves_only_a_found_key_witness :
  let w := w_answer body_login_failed in
  let w' := snd (new_session sample_fromstring w) in
  session_file w' = session_file w \/
  exists line pw rest_in rest_tty body root key_elem t,
    stdin w = line :: rest_in /\
    tty w = pw :: rest_tty /\
    net w (sent w) (exchange_params (strip line) pw) = Some body /\
    sample_fromstring body = Some root /\
    find "Key" root = Some key_elem /\
    text key_elem = Some t /\
    In (HttpGet (exchange_params (strip line) pw)) (trace w') /\
    session_file w' = Some (mkFile (clock w) (strip t)).
Proof.
  apply (new_session_saves_only_a_found_key sample_fromstring
           (w_answer body_login_failed)
           (snd (new_session sample_fromstring (w_answer body_login_failed)))
           (Exit 1)).
  run.
Defined.

Lemma new_session_failure_escapes_witness :
  exists e w',
    new_session sample_fromstring w_offline = (Raise e, w') /\
    (e = RequestException \/ e = ParseError) /\
    sent w' = S (sent w_offline) /\
    session_file w' = session_file w_offline.
Proof.
  apply (new_session_failure_escapes sample_fromstring w_offline
           " w1aw " "secret" [] []); try reflexivity.
  now left.
Defined.

Lemma get_session_no_probe_without_cache_witness :
  get_session sample_fromstring w_expired =
    new_session sample_fromstring (log (Stdout OutExpiredOrMissing) w_expired) /\
  forall o w',
    get_session sample_fromstring w_expired = (o, w') ->
    exists evs,
      trace w' =
        trace w_expired ++
        Stdout OutExpiredOrMissing :: Stdout OutUsernamePrompt :: evs /\
      forall s, ~ In (HttpGet (probe_params s)) evs.
Proof.
  apply (get_session_no_probe_without_cache sample_fromstring w_expired).
  right. exists (mkFile 1000 "stale9"). split; [reflexivity | run].
Defined.


Lemma get_session_at_most_two_requests_witness :
  (sent (snd (get_session sample_fromstring w_rejected)) <=
   sent w_rejected + 2)%nat.
Proof.
  apply (get_session_at_most_two_requests sample_fromstring w_rejected
           (snd (get_session sample_fromstring w_rejected)) (Ret "abc123")).
  run.
Defined.

Lemma lookup_call_one_request_witness :
  let w := w_answer body_login_failed in
  let w' :=
    snd (lookup_call sample_fromstring sample_strftime "abc123" "W1AW" w) in
  sent w' = S (sent w) /\
  session_file w' = session_file w /\
  stdin w' = stdin w /\ tty w' = tty w /\
  (trace w' = trace w ++ [HttpGet (lookup_params "abc123" "W1AW")] \/
   trace w' =
     trace w ++
     [HttpGet (lookup_params "abc123" "W1AW"); Stdout OutExpiredMidQuery]).
Proof.
  apply (lookup_call_one_request sample_fromstring sample_strftime
           "abc123" "W1AW" (w_answer body_login_failed)
           (snd (lookup_call sample_fromstring sample_strftime
                   "abc123" "W1AW" (w_answer body_login_failed)))
           (Exit 1)).
  run.
Defined.

Lemma lookup_call_fields_stripped_witness :
  strip (call rec_w1aw) = call rec_w1aw /\
  strip (fname rec_w1aw) = fname rec_w1aw /\
  strip (name rec_w1aw) = name rec_w1aw /\
  strip (addr rec_w1aw) = addr rec_w1aw /\
  strip (state rec_w1aw) = state rec_w1aw /\
  strip (country rec_w1aw) = country rec_w1aw.
Proof.
  apply (lookup_call_fields_stripped sample_fromstring sample_strftime
           "abc123" "W1AW" (w_answer body_record)
           (snd (lookup_call sample_fromstring sample_strftime
                   "abc123" "W1AW" (w_answer body_record)))
           rec_w1aw).
  run.
Defined.

Lemma lookup_call_outcomes_witness :
  let w := w_answer body_textless_field in
  let q := lookup_params "abc123" "W1AW" in
  let o : outcome Lookup := Raise AttributeError in
  (o = Raise RequestException /\ net w (sent w) q = None) \/
  (o = Raise ParseError /\
   exists body, net w (sent w) q = Some body /\
                sample_fromstring body = None) \/
  (o = Exit 1 /\
   exists body root e,
     net w (sent w) q = Some body /\ sample_fromstring body = Some root /\
     In e (descendants root) /\ tag e = "Error") \/
  (o = Raise AttributeError /\
   exists body root t e,
     net w (sent w) q = Some body /\ sample_fromstring body = Some root /\
     (forall x, In x (descendants root) -> tag x <> "Error") /\
     In t FIELDS /\ find t root = Some e /\ text e = None) \/
  (exists r,
     o = Ret r /\
     exists body root,
       net w (sent w) q = Some body /\ sample_fromstring body = Some root /\
       (forall x, In x (descendants root) -> tag x <> "Error") /\
       (forall t e, In t FIELDS -> find t root = Some e -> text e <> None)).
Proof.
  apply (lookup_call_outcomes sample_fromstring sample_strftime
           "abc123" "W1AW" (w_answer body_textless_field)
           (snd (lookup_call sample_fromstring sample_strftime
                   "abc123" "W1AW" (w_answer body_textless_field)))
           (Raise AttributeError)).
  run.
Defined.

Lemma root_error_probe_and_lookup_witness :
  let w := w_answer body_root_invalid in
  (net w (sent w) (probe_params "abc123") = Some body_root_invalid ->
   session_valid root_invalid_fromstring "abc123" w =
     (Ret false, requested (probe_params "abc123") w)) /\
  (net w (sent w) (lookup_params "abc123" "W1AW") = Some body_root_invalid ->
   lookup_call root_invalid_fromstring sample_strftime "abc123" "W1AW" w =
     (Ret (mkLookup "" "" "" "" "" "" (sample_strftime (clock w))),
      requested (lookup_params "abc123" "W1AW") w)).
Proof.
  apply (root_error_probe_and_lookup root_invalid_fromstring sample_strftime
           "abc123" "W1AW" body_root_invalid "Invalid session key"
           (w_answer body_root_invalid)).
  - reflexivity.
  - exists "", "". reflexivity.
Defined.

Lemma export_json_not_an_array_witness :
  export_json sample_json_load sample_json_dump rec_w1aw JSON_FILE sys_object =
  (Raise AttributeError, sys_object).
Proof.
  apply (export_json_not_an_array sample_json_load sample_json_dump
           rec_w1aw JSON_FILE "{}" sys_object (JObject [])).
  - reflexivity.
  - reflexivity.
  - discriminate.
Defined.

Lemma export_json_starts_afresh_witness :
  exists s',
    export_json sample_json_load sample_json_dump rec_w1aw JSON_FILE
      (mkSys w_run (put JSON_FILE "not json" no_files) []) = (Ret tt, s') /\
    disk s' JSON_FILE =
      Some (sample_json_dump (JArray [record_json rec_w1aw])) /\
    (forall f, f <> JSON_FILE ->
               disk s' f = put JSON_FILE "not json" no_files f) /\
    core s' = w_run /\
    console s' = [JsonUpdated JSON_FILE].
Proof.
  apply (export_json_starts_afresh sample_json_load sample_json_dump
           rec_w1aw JSON_FILE
           (mkSys w_run (put JSON_FILE "not json" no_files) [])).
  right. exists "not json". split; reflexivity.
Defined.

Lemma export_json_twice_witness :
  exists s',
    pbind (export_json sample_json_load sample_json_dump rec_w1aw JSON_FILE)
      (fun _ =>
         export_json sample_json_load sample_json_dump rec_k1abc JSON_FILE)
      sys_array = (Ret tt, s') /\
    disk s' JSON_FILE =
      Some (sample_json_dump
              (JArray ([] ++ [record_json rec_w1aw; record_json rec_k1abc]))) /\
    (forall f, f <> JSON_FILE -> disk s' f = disk sys_array f) /\
    console s' =
      console sys_array ++ [JsonUpdated JSON_FILE; JsonUpdated JSON_FILE].
Proof.
  apply (export_json_twice sample_json_load sample_json_dump
           rec_w1aw rec_k1abc JSON_FILE "[]" sys_array []); reflexivity.
Defined.

Lemma main_writes_only_selected_files_witness :
  let args := mkArgs "w1aw" true false false in
  let s' :=
    snd (main sample_fromstring sample_strftime sample_upper sample_csv_row
           sample_json_load sample_json_dump args sys_run) in
  (exists o1 w1,
     get_session sample_fromstring (core sys_run) = (o1, w1) /\
     session_file (core s') = session_file w1) /\
  (forall f, f <> CSV_FILE -> f <> JSON_FILE -> disk s' f = disk sys_run f) /\
  (arg_csv args || arg_both args = false ->
   disk s' CSV_FILE = disk sys_run CSV_FILE) /\
  (arg_json args || arg_both args = false ->
   disk s' JSON_FILE = disk sys_run JSON_FILE).
Proof.
  apply (main_writes_only_selected_files sample_fromstring sample_strftime
           sample_upper sample_csv_row sample_json_load sample_json_dump
           (mkArgs "w1aw" true false false) sys_run
           (snd (main sample_fromstring sample_strftime sample_upper
                   sample_csv_row sample_json_load sample_json_dump
                   (mkArgs "w1aw" true false false) sys_run))
           (Ret tt)).
  run.
Defined.

Lemma main_exports_only_after_lookup_witness :
  let s := mkSys w_offline no_files [] in
  let s' :=
    snd (main sample_fromstring sample_strftime sample_upper sample_csv_row
           sample_json_load sample_json_dump args_both s) in
  (exists session w1 r,
     get_session sample_fromstring (core s) = (Ret session, w1) /\
     lookup_call sample_fromstring sample_strftime session
       (sample_upper (arg_callsign args_both)) w1 = (Ret r, core s') /\
     exists more, console s' = console s ++ result_lines r ++ more) \/
  (Raise RequestException <> Ret tt /\
   disk s' = disk s /\ console s' = console s).
Proof.
  apply (main_exports_only_after_lookup sample_fromstring sample_strftime
           sample_upper sample_csv_row sample_json_load sample_json_dump
           args_both (mkSys w_offline no_files [])
           (snd (main sample_fromstring sample_strftime sample_upper
                   sample_csv_row sample_json_load sample_json_dump
                   args_both (mkSys w_offline no_files [])))
           (Raise RequestException)).
  run.
Defined.

Lemma main_csv_written_before_json_fails_witness :
  exists s',
    main sample_fromstring sample_strftime sample_upper sample_csv_row
      sample_json_load sample_json_dump args_both sys_object =
      (Raise AttributeError, s') /\
    disk s' CSV_FILE =
      Some ((match disk sys_object CSV_FILE with
             | None => sample_csv_row CSV_FIELDNAMES
             | Some old => old
             end) ++ sample_csv_row (record_values rec_w1aw))%string /\
    disk s' JSON_FILE = Some "{}" /\
    console s' =
      console sys_object ++ result_lines rec_w1aw ++ [CsvUpdated CSV_FILE].
Proof.
  apply (main_csv_written_before_json_fails sample_fromstring sample_strftime
           sample_upper sample_csv_row sample_json_load sample_json_dump
           args_both sys_object "abc123" "{}"
           (snd (get_session sample_fromstring w_run))
           (snd (lookup_call sample_fromstring sample_strftime "abc123" "W1AW"
                   (snd (get_session sample_fromstring w_run))))
           rec_w1aw (JObject [])); try run.
  discriminate.
Defined.

Lemma main_both_exports_witness :
  exists s',
    main sample_fromstring sample_strftime sample_upper sample_csv_row
      sample_json_load sample_json_dump args_both sys_run = (Ret tt, s') /\
    core s' =
      snd (lookup_call sample_fromstring sample_strftime "abc123" "W1AW"
             (snd (get_session sample_fromstring w_run))) /\
    disk s' CSV_FILE =
      Some (sample_csv_row CSV_FIELDNAMES ++
            sample_csv_row (record_values rec_w1aw))%string /\
    disk s' JSON_FILE =
      Some (sample_json_dump (JArray [record_json rec_w1aw])) /\
    console s' =
      console sys_run ++ result_lines rec_w1aw ++
      [CsvUpdated CSV_FILE; JsonUpdated JSON_FILE].
Proof.
  apply (main_both_exports sample_fromstring sample_strftime
           sample_upper sample_csv_row sample_json_load sample_json_dump
           args_both sys_run "abc123"
           (snd (get_session sample_fromstring w_run))
           (snd (lookup_call sample_fromstring sample_strftime "abc123" "W1AW"
                   (snd (get_session sample_fromstring w_run))))
           rec_w1aw); run.
Defined.

(** Three exports to a CSV file that exists and is empty: three rows, no
    header. *)
Example export_csv_all_empty_file :
  disk
    (snd (export_csv_all sample_csv_row [rec_w1aw; rec_k1abc; rec_w1aw]
            CSV_FILE (mkSys w_run (put CSV_FILE "" no_files) [])))
    CSV_FILE =
  Some (join (map (fun r => sample_csv_row (record_values r))
                  [rec_w1aw; rec_k1abc; rec_w1aw])).
Proof. reflexivity. Qed.

Lemma get_session_reuses_new_session_witness :
  let w2 := requested (probe_params "abc123") w_next_run in
  get_session sample_fromstring w_next_run =
    (Ret "abc123", log (Stdout OutUsingCached) w2) /\
  stdin (log (Stdout OutUsingCached) w2) = stdin w_next_run /\
  tty (log (Stdout OutUsingCached) w2) = tty w_next_run.
Proof.
  apply (get_session_reuses_new_session sample_fromstring
           (w_answer body_key)
           (snd (new_session sample_fromstring (w_answer body_key)))
           w_next_run (requested (probe_params "abc123") w_next_run)
           "abc123").
  - run.
  - discriminate.
  - reflexivity.
  - reflexivity.
  - reflexivity.
  - run.
Defined.

Lemma new_session_blank_key_witness :
  exists w',
    new_session blank_key_fromstring (w_answer body_blank_key) = (Ret "", w') /\
    session_file w' = Some (mkFile (clock (w_answer body_blank_key)) "") /\
    forall later,
      session_file later = session_file w' ->
      get_session blank_key_fromstring later =
        new_session blank_key_fromstring
          (log (Stdout OutExpiredOrMissing) later).
Proof.
  apply (new_session_blank_key blank_key_fromstring
           (w_answer body_blank_key) " w1aw " "secret" body_blank_key " "
           [] [] doc_blank_key (Elem "Key" (Some " ") []));
    reflexivity.
Defined.

Lemma main_at_most_three_requests_witness :
  (sent (core (snd (main sample_fromstring sample_strftime sample_upper
                      sample_csv_row sample_json_load sample_json_dump
                      args_both sys_run))) <=
   sent (core sys_run) + 3)%nat.
Proof.
  apply (main_at_most_three_requests sample_fromstring sample_strftime
           sample_upper sample_csv_row sample_json_load sample_json_dump
           args_both sys_run
           (snd (main sample_fromstring sample_strftime sample_upper
                   sample_csv_row sample_json_load sample_json_dump
                   args_both sys_run))
           (Ret tt)).
  run.
Defined.

(** ** Counterexamples *)

(** C2 as stated fails here: the session file is ten minutes old and holds
    [ab] CR LF [cd] CR [EF]; [load_session] returns a token, but not the
    persisted string: the line ends have become LF. *)
Lemma load_session_not_the_persisted_string :
  session_file w_three_lines = Some (mkFile 1000 three_lines) /\
  too_old (clock w_three_lines) 1000 = false /\
  load_session w_three_lines =
    (Ret (Some ("ab" ++ String LF ("cd" ++ String LF "EF"))%string),
     w_three_lines) /\
  ("ab" ++ String LF ("cd" ++ String LF "EF"))%string <> three_lines.
Proof. repeat split. discriminate. Qed.

(** C7 as stated fails here: the exchange response contains a session key
    with a carriage return in it; [new_session] saves and returns it, and
    half an hour later [load_session] reads another string, with a line
    feed in its place. *)
Lemma new_session_key_with_carriage_return :
  let w := w_answer body_cr_key in
  let w' := snd (new_session cr_key_fromstring w) in
  let later :=
    mkWorld (session_file w') 3400 [] [] (net w') (sent w') (trace w') in
  find "Key" doc_cr_key = Some (Elem "Key" (Some key_with_cr) []) /\
  new_session cr_key_fromstring w = (Ret key_with_cr, w') /\
  session_file w' = Some (mkFile 1600 key_with_cr) /\
  too_old (clock later) 1600 = false /\
  load_session later = (Ret (Some ("ab" ++ String LF "cd")%string), later) /\
  ("ab" ++ String LF "cd")%string <> key_with_cr.
Proof. repeat split. discriminate. Qed.

(** C8 as stated fails here: the exchange response is not XML, so it
    contains no [Key] element; [new_session] neither prints the failure
    message and the body nor exits: the parse error escapes right after
    the request. *)
Lemma new_session_malformed_response :
  let w := w_answer body_malformed in
  sample_fromstring body_malformed = None /\
  fst (new_session sample_fromstring w) = Raise ParseError /\
  trace (snd (new_session sample_fromstring w)) =
    [Stdout OutUsernamePrompt; ReadStdin " w1aw "; Getpass "secret";
     HttpGet (exchange_params "w1aw" "secret")] /\
  session_file (snd (new_session sample_fromstring w)) = None.
Proof. repeat split. Qed.

(** C5 at a response whose root is the [Error] element: the response
    contains an error element, and [lookup_call] does not end the run; it
    returns a record of empty strings after its one request, without a
    message.  [session_valid] does find an [Error] element at the root
    ([iter_and_find_at_the_root]). *)
Theorem lookup_call_root_error_not_detected :
  let w := w_answer body_root_error in
  net w (sent w) (lookup_params "abc123" "W1AW") = Some body_root_error /\
  sample_fromstring body_root_error = Some doc_root_error /\
  tag doc_root_error = "Error" /\
  iter "Error" doc_root_error = [doc_root_error] /\
  find "Error" doc_root_error = None /\
  lookup_call sample_fromstring sample_strftime "abc123" "W1AW" w =
    (Ret (mkLookup "" "" "" "" "" "" "2024-05-01 12:00:00"),
     requested (lookup_params "abc123" "W1AW") w).
Proof. repeat split. Qed.

(** The window is the one the code computes in floating point: for these
    two times the difference is more than 3600 seconds, the quotient by 60
    rounds to 60 and the file is still read. *)
Example load_session_rounded_age :
  let now := 0x1.c2000000a10fbp+11%float in
  let m := 0x1.421f5f40d8377p-22%float in
  age_minutes now m = 60%float /\
  too_old now m = false /\
  fst (load_session (sample_world (Some (mkFile m "abc123")) now [])) =
    Ret (Some "abc123").
Proof. repeat split. Qed.

(** A text without carriage return is read back as it was written. *)
Example content_of_written_text :
  content (mkFile 1600 "abc123") = "abc123" /\
  content (mkFile 1600 three_lines) =
    ("ab" ++ String LF ("cd" ++ String LF "EF"))%string.
Proof. split; reflexivity. Qed.
